(** * glass-todo: the synchronisation and reminder core of [server.js]

    A shallow embedding of the sync handlers ([GET /api/data],
    [POST /api/data]), the push dispatcher ([sendPushToUser]) and the reminder
    scanner ([scanAndSendReminders]), with the fragment of JavaScript's dynamic
    semantics these functions rely on (truthiness, the relational comparison,
    [+], strict equality against a literal, property reads and writes). *)

From stdpp Require Import base strings gmap list fin_maps pretty.
From Stdlib Require Import ZArith Lia Sorted.

#[local] Set Warnings "-register-all".

Local Open Scope string_scope.
Local Open Scope list_scope.
Local Open Scope Z_scope.

(** ** JavaScript values *)

Module JS.

(** A value that [JSON.parse] can produce.  Numbers are the integers: every
    number the server computes with is an epoch-millisecond stamp, on which
    doubles are exact.  An object is the finite map from its own property
    names to their values. *)
Inductive json : Type :=
| JNull
| JBool (b : bool)
| JNum (n : Z)
| JStr (s : string)
| JArr (l : list json)
| JObj (m : gmap string json).

(** A value as an expression yields it: [None] is [undefined]. *)
Definition value : Type := option json.

(** A number at run time: [None] is [NaN]. *)
Definition number : Type := option Z.

Inductive prim : Type :=
| PUndefined
| PNull
| PBool (b : bool)
| PNumber (n : number)
| PString (s : string).

(** [ToBoolean]. *)
Definition truthy (v : value) : bool :=
  match v with
  | None => false
  | Some JNull => false
  | Some (JBool b) => b
  | Some (JNum n) => negb (n =? 0)
  | Some (JStr s) => negb (String.eqb s "")
  | Some (JArr _) => true
  | Some (JObj _) => true
  end.

(** [Array.prototype.join] with the separator [","]. *)
Fixpoint join (l : list string) : string :=
  match l with
  | [] => ""
  | [s] => s
  | s :: rest => (s ++ "," ++ join rest)%string
  end.

(** [ToString] on a JSON value: an array prints its elements joined by commas,
    [null] elements as the empty string; a plain object prints as
    ["[object Object]"].  (An object that shadows [toString] with a property
    of its own makes the conversion throw; such objects are outside this
    model.) *)
Fixpoint json_to_string (j : json) : string :=
  match j with
  | JNull => "null"
  | JBool true => "true"
  | JBool false => "false"
  | JNum n => pretty n
  | JStr s => s
  | JArr l =>
      join (map (fun e => match e with
                          | JNull => ""
                          | _ => json_to_string e
                          end) l)
  | JObj _ => "[object Object]"
  end.

Definition ToString (v : value) : string :=
  match v with
  | None => "undefined"
  | Some j => json_to_string j
  end.

(** [ToPrimitive]: arrays and plain objects have no primitive [valueOf], so
    both hints end in [toString]. *)
Definition ToPrimitive (v : value) : prim :=
  match v with
  | None => PUndefined
  | Some JNull => PNull
  | Some (JBool b) => PBool b
  | Some (JNum n) => PNumber (Some n)
  | Some (JStr s) => PString s
  | Some (JArr l) => PString (json_to_string (JArr l))
  | Some (JObj m) => PString (json_to_string (JObj m))
  end.

Definition number_to_string (n : number) : string :=
  match n with
  | None => "NaN"
  | Some z => pretty z
  end.

Definition prim_to_string (p : prim) : string :=
  match p with
  | PUndefined => "undefined"
  | PNull => "null"
  | PBool true => "true"
  | PBool false => "false"
  | PNumber n => number_to_string n
  | PString s => s
  end.

Section Coercions.

(** [StringToNumber] is the language's: the numeric value of a string
    literal, [None] when the string is not one. *)
Variable StringToNumber : string -> number.

Definition ToNumber (p : prim) : number :=
  match p with
  | PUndefined => None
  | PNull => Some 0
  | PBool true => Some 1
  | PBool false => Some 0
  | PNumber n => n
  | PString s => StringToNumber s
  end.

(** The abstract relational comparison [x < y] on primitives: [None] is the
    result [undefined], which a [NaN] operand gives.  Two strings compare
    unit by unit. *)
Definition less_than (x y : prim) : option bool :=
  match x, y with
  | PString a, PString b => Some (String.ltb a b)
  | _, _ =>
      match ToNumber x, ToNumber y with
      | Some a, Some b => Some (a <? b)
      | _, _ => None
      end
  end.

(** [a < b]. *)
Definition lt (a b : prim) : bool :=
  match less_than a b with
  | Some r => r
  | None => false
  end.

(** [a >= b]: false when [a < b] is true or undefined. *)
Definition ge (a b : prim) : bool :=
  match less_than a b with
  | Some r => negb r
  | None => false
  end.

(** [a + b]: concatenation as soon as one operand is a string. *)
Definition add (a b : prim) : prim :=
  match a, b with
  | PString s, _ => PString (s ++ prim_to_string b)%string
  | _, PString s => PString (prim_to_string a ++ s)%string
  | _, _ =>
      match ToNumber a, ToNumber b with
      | Some x, Some y => PNumber (Some (x + y))
      | _, _ => PNumber None
      end
  end.

End Coercions.

(** [v === "lit"] for a string literal. *)
Definition strict_eq_string (v : value) (lit : string) : bool :=
  match v with
  | Some (JStr s) => String.eqb s lit
  | _ => false
  end.

(** [v === n] for a number literal. *)
Definition strict_eq_number (v : value) (n : Z) : bool :=
  match v with
  | Some (JNum k) => k =? n
  | _ => false
  end.

(** [o.k], for the property names the server reads ([deletedAt], [status],
    [remindAt], [notifiedAt], [date], [start], [title], [id]): none of them
    is inherited, so the read is [undefined] on anything but an object that
    owns the property. *)
Definition get (o : json) (k : string) : value :=
  match o with
  | JObj m => m !! k
  | _ => None
  end.

(** [o.k = v] on an object parsed from JSON. *)
Definition set (o : json) (k : string) (v : json) : json :=
  match o with
  | JObj m => JObj (<[k := v]> m)
  | _ => o
  end.

End JS.

(** ** The server *)

Module Server.
Import JS.

Definition PUSH_SCAN_INTERVAL_MS : Z := 60 * 1000.
Definition PUSH_WINDOW_MS : Z := 60 * 1000.

(** *** Storage *)

(** Modelled from the spec: the two tables of [./server/db], which is not part
    of the sources.  [data] holds one row per username (its unique key) and
    [push_subscriptions] one row per endpoint (its unique key); a statement is
    atomic, succeeds, and takes effect in the order the handlers issue it.
    The column [json_data] holds the text [JSON.stringify] wrote, modelled by
    the value the text denotes, so that [JSON.parse] of a stored text gives
    that value back; [None] is SQL [NULL], which binding [undefined] stores. *)
Record DataRow : Type := {
  json_data : option json;
  version : Z
}.

Record SubRow : Type := {
  sub_username : string;
  sub_p256dh : string;
  sub_auth : string;
  sub_expiration_time : option Z;
  sub_created_at : Z
}.

(** What [webpush.sendNotification] is handed for one subscription. *)
Record Subscription : Type := {
  endpoint : string;
  p256dh : string;
  auth : string
}.

(** The object [buildPushPayload] returns; [JSON.stringify] of it is the
    message. *)
Record Payload : Type := {
  title : string;
  body : value;
  url : string;
  tag : string
}.

(** How one [webpush.sendNotification] settles: resolved, or rejected with an
    error whose [statusCode] ([err?.statusCode]) is the value carried. *)
Inductive outcome : Type :=
| Delivered
| Rejected (statusCode : value).

(** What the run leaves to observe, oldest first: each call of the dispatcher
    with what it returned, and each delivery attempted with how it settled. *)
Inductive event : Type :=
| Dispatch (username : string) (payload : Payload) (sent : bool)
| Send (sub : Subscription) (payload : Payload) (result : outcome).

Record World : Type := {
  data : gmap string DataRow;
  push_subscriptions : gmap string SubRow;
  ticks : nat;
  trace : list event
}.

(** What the process does not decide: the signing keys (set once at start-up),
    the successive readings of [Date.now()], how the push service answers a
    delivery given everything that happened before, and [StringToNumber]. *)
Record Env : Type := {
  VAPID_PUBLIC_KEY : string;
  VAPID_PRIVATE_KEY : string;
  clock : nat -> Z;
  transport : list event -> Subscription -> Payload -> outcome;
  StringToNumber : string -> number
}.

(** The body of [POST /api/data] after [bodyParser.json()]: each field is
    whatever JSON value the client sent, or [undefined]. *)
Record PublishBody : Type := {
  pb_data : value;
  pb_version : value;
  pb_force : value
}.

Inductive response : Type :=
| Fetched (data : json) (version : Z)
| Published (version : Z)
| Conflict (serverVersion : Z).

(** *** The state monad the handlers run in *)

(** A handler runs from its first statement to its last on the state it finds:
    what other requests could do at its [await]s and callbacks is not part of
    the model. *)
Definition M (A : Type) : Type := World -> A * World.

#[export] Instance M_ret : MRet M := fun A (a : A) w => (a, w).
#[export] Instance M_bind : MBind M :=
  fun A B (f : A -> M B) (m : M A) w => let '(a, w') := m w in f a w'.

Definition run {A} (m : M A) (w : World) : A * World := m w.

Fixpoint for_each {A} (f : A -> M unit) (l : list A) : M unit :=
  match l with
  | [] => mret tt
  | x :: rest => f x ;; for_each f rest
  end.

Definition record (e : event) : M unit :=
  fun w => (tt, {| data := data w; push_subscriptions := push_subscriptions w;
                   ticks := ticks w; trace := trace w ++ [e] |}).

Section WithEnv.

Variable env : Env.

(** [Date.now()]. *)
Definition Date_now : M Z :=
  fun w => (clock env (ticks w),
            {| data := data w; push_subscriptions := push_subscriptions w;
               ticks := S (ticks w); trace := trace w |}).

(** [SELECT json_data, version FROM data WHERE username = ?] *)
Definition select_data (username : string) : M (option DataRow) :=
  fun w => (data w !! username, w).

(** [SELECT username, json_data FROM data] *)
Definition select_all_data : M (list (string * option json)) :=
  fun w => (map (fun kv => (kv.1, json_data kv.2)) (map_to_list (data w)), w).

(** [INSERT OR REPLACE INTO data (username, json_data, version)] *)
Definition replace_data (username : string) (text : option json) (v : Z)
  : M unit :=
  fun w => (tt, {| data := <[username := {| json_data := text; version := v |}]> (data w);
                   push_subscriptions := push_subscriptions w;
                   ticks := ticks w; trace := trace w |}).

(** [SELECT endpoint, p256dh, auth FROM push_subscriptions WHERE username = ?] *)
Definition select_subscriptions (username : string) : M (list Subscription) :=
  fun w =>
    (map (fun kv => {| endpoint := kv.1; p256dh := sub_p256dh kv.2; auth := sub_auth kv.2 |})
         (List.filter (fun kv => String.eqb (sub_username kv.2) username)
                      (map_to_list (push_subscriptions w))), w).

(** [DELETE FROM push_subscriptions WHERE endpoint = ?] *)
Definition delete_subscription (e : string) : M unit :=
  fun w => (tt, {| data := data w;
                   push_subscriptions := delete e (push_subscriptions w);
                   ticks := ticks w; trace := trace w |}).

(** [webpush.sendNotification(subscription, message)], awaited. *)
Definition sendNotification (sub : Subscription) (p : Payload) : M outcome :=
  fun w =>
    let r := transport env (trace w) sub p in
    (r, {| data := data w; push_subscriptions := push_subscriptions w;
           ticks := ticks w; trace := trace w ++ [Send sub p r] |}).

(** *** Dispatcher *)

Definition isPushConfigured : bool :=
  negb (String.eqb (VAPID_PUBLIC_KEY env) "") && negb (String.eqb (VAPID_PRIVATE_KEY env) "").

Definition buildPushPayload (task : json) : Payload :=
  let when :=
    if truthy (get task "date")
    then (ToString (get task "date") ++
          (if truthy (get task "start") then " " ++ ToString (get task "start") else ""))%string
    else "" in
  {| title := "开始时间提醒";
     body := if truthy (Some (JStr when))
             then Some (JStr (ToString (get task "title") ++ " (" ++ when ++ ")")%string)
             else get task "title";
     url := "/";
     tag := ("task-" ++ ToString (get task "id"))%string |}.

(** One element of [sendJobs]: the delivery to one subscription and what its
    [catch] does.  A failure that is neither 404 nor 410 is only logged. *)
Definition send_job (p : Payload) (sub : Subscription) : M unit :=
  r ← sendNotification sub p;
  match r with
  | Delivered => mret tt
  | Rejected code =>
      if strict_eq_number code 404 || strict_eq_number code 410
      then delete_subscription (endpoint sub)
      else mret tt
  end.

Definition sendPushToUser (username : string) (p : Payload) : M bool :=
  sent ← (if negb isPushConfigured then mret false else
          subs ← select_subscriptions username;
          if (length subs =? 0)%nat then mret false else
          for_each (send_job p) subs ;;
          mret true);
  record (Dispatch username p sent) ;;
  mret sent.

(** *** Reminder scanner *)

(** [!task || task.deletedAt || task.status === 'completed'] *)
Definition excluded (task : json) : bool :=
  negb (truthy (Some task)) || truthy (get task "deletedAt")
  || strict_eq_string (get task "status") "completed".

(** [task.notifiedAt && task.notifiedAt >= remindAt] *)
Definition already_notified (task : json) : bool :=
  truthy (get task "notifiedAt")
  && ge (StringToNumber env) (ToPrimitive (get task "notifiedAt"))
        (ToPrimitive (get task "remindAt")).

(** [now < remindAt || now >= (remindAt + PUSH_WINDOW_MS)] *)
Definition outside_window (now : Z) (task : json) : bool :=
  lt (StringToNumber env) (PNumber (Some now)) (ToPrimitive (get task "remindAt"))
  || ge (StringToNumber env) (PNumber (Some now))
        (add (StringToNumber env) (ToPrimitive (get task "remindAt"))
             (PNumber (Some PUSH_WINDOW_MS))).

(** The guards of one pass of the task loop: [true] when none of the four
    [continue]s is taken, so that the pass goes on to the dispatcher. *)
Definition due (now : Z) (task : json) : bool :=
  if excluded task then false else
  if negb (truthy (get task "remindAt")) then false else
  if already_notified task then false else
  if outside_window now task then false else true.

(** One pass of [for (const task of tasks)]: the task as the pass leaves it
    and whether the pass set [changed]. *)
Definition scan_task (username : string) (now : Z) (task : json)
  : M (json * bool) :=
  if due now task then
    sent ← sendPushToUser username (buildPushPayload task);
    if sent : bool then mret (set task "notifiedAt" (JNum now), true)
    else mret (task, false)
  else mret (task, false).

(** The task loop: the array as the loop leaves it, and [changed]. *)
Fixpoint scan_tasks (username : string) (now : Z) (tasks : list json)
  : M (list json * bool) :=
  match tasks with
  | [] => mret ([], false)
  | task :: rest =>
      r ← scan_task username now task;
      rs ← scan_tasks username now rest;
      mret (r.1 :: rs.1, r.2 || rs.2)
  end.

(** One pass of [for (const row of rows)].  [row.json_data || '[]'] reads a
    [NULL] column as the empty array; anything that is not a non-empty array
    is skipped. *)
Definition scan_row (now : Z) (row : string * option json) : M unit :=
  let tasks := match row.2 with Some j => j | None => JArr [] end in
  match tasks with
  | JArr (t :: ts) =>
      r ← scan_tasks row.1 now (t :: ts);
      if r.2 : bool then
        newVersion ← Date_now;
        replace_data row.1 (Some (JArr r.1)) newVersion
      else mret tt
  | _ => mret tt
  end.

Definition scanAndSendReminders : M unit :=
  if negb isPushConfigured then mret tt else
  rows ← select_all_data;
  now ← Date_now;
  for_each (scan_row now) rows.

(** *** Sync handlers *)

(** [GET /api/data] for the user [authenticate] let in.  [JSON.parse] of a
    [NULL] column parses the text ["null"]. *)
Definition fetch (username : string) : M response :=
  row ← select_data username;
  mret (Fetched (match row with
                 | Some r => match json_data r with Some j => j | None => JNull end
                 | None => JArr []
                 end)
                (match row with Some r => version r | None => 0 end)).

(** [POST /api/data] for the user [authenticate] let in. *)
Definition publish (username : string) (req : PublishBody) : M response :=
  row ← select_data username;
  let serverVersion := match row with Some r => version r | None => 0 end in
  if negb (truthy (pb_force req))
     && lt (StringToNumber env) (ToPrimitive (pb_version req)) (PNumber (Some serverVersion))
  then mret (Conflict serverVersion)
  else
    newVersion ← Date_now;
    replace_data username (pb_data req) newVersion ;;
    mret (Published newVersion).

End WithEnv.

(** *** What a run is observed by *)

(** The version the store holds for a user: 0 when it holds none. *)
Definition stored_version (username : string) (w : World) : Z :=
  match data w !! username with
  | Some r => version r
  | None => 0
  end.

(** The events a computation adds to the trace when run from [w]. *)
Definition new_events {A} (m : M A) (w : World) : list event :=
  drop (length (trace w)) (trace (run m w).2).

(** The calls of the dispatcher among some events. *)
Definition calls (evs : list event) : list (string * Payload) :=
  omap (fun e => match e with
                 | Dispatch u p _ => Some (u, p)
                 | Send _ _ _ => None
                 end) evs.

(** The calls of the dispatcher that returned [true]. *)
Definition successes (evs : list event) : list (string * Payload) :=
  omap (fun e => match e with
                 | Dispatch u p true => Some (u, p)
                 | _ => None
                 end) evs.

(** The payloads of the calls of the dispatcher for one user that returned
    [true]. *)
Definition successes_of (username : string) (evs : list event) : list Payload :=
  omap (fun up : string * Payload =>
          if String.eqb up.1 username then Some up.2 else None) (successes evs).

(** The payloads of the calls of the dispatcher for one user. *)
Definition calls_of (username : string) (evs : list event) : list Payload :=
  omap (fun up : string * Payload =>
          if String.eqb up.1 username then Some up.2 else None) (calls evs).

(** The subscriptions a delivery was attempted to. *)
Definition attempted (evs : list event) : list Subscription :=
  omap (fun e => match e with
                 | Send sub _ _ => Some sub
                 | Dispatch _ _ _ => None
                 end) evs.

(** The push service answered 404 or 410. *)
Definition gone (r : outcome) : bool :=
  match r with
  | Delivered => false
  | Rejected code => strict_eq_number code 404 || strict_eq_number code 410
  end.

(** Some delivery to the endpoint [e] was answered 404 or 410. *)
Definition reported_gone (e : string) (evs : list event) : bool :=
  existsb (fun ev => match ev with
                     | Send sub _ r => String.eqb (endpoint sub) e && gone r
                     | Dispatch _ _ _ => false
                     end) evs.

(** A task after a pass that dispatched it with success ([true]) or not. *)
Definition mark (now : Z) (task : json) (sent : bool) : json :=
  if sent then set task "notifiedAt" (JNum now) else task.

(** The tasks of a collection that a scan marked, given one flag per task. *)
Definition dispatched (tasks : list json) (flags : list bool) : list json :=
  omap (fun tf : json * bool => if tf.2 then Some tf.1 else None) (zip tasks flags).

(** The tasks a stored column holds for the scanner: those of a non-empty
    array, and none for anything else. *)
Definition tasks_of (column : option json) : list json :=
  match column with
  | Some (JArr l) => l
  | _ => []
  end.

(** The same task met by the scans made at the times [nows], one after the
    other. *)
Fixpoint rescans (env : Env) (username : string) (nows : list Z) (task : json)
  : M json :=
  match nows with
  | [] => mret task
  | now :: later =>
      r ← scan_task env username now task;
      rescans env username later r.1
  end.

(** What reaches the sync core: a write or a read of some user's collection,
    or a tick of the scan timer. *)
Inductive request : Type :=
| PostData (username : string) (req : PublishBody)
| GetData (username : string)
| ScanTick.

Definition serve (env : Env) (r : request) : M (option response) :=
  match r with
  | PostData u req => a ← publish env u req; mret (Some a)
  | GetData u => a ← fetch u; mret (Some a)
  | ScanTick => scanAndSendReminders env ;; mret None
  end.

(** A series of requests served one after the other: each with its answer. *)
Fixpoint serve_all (env : Env) (rs : list request)
  : M (list (request * option response)) :=
  match rs with
  | [] => mret []
  | r :: later =>
      a ← serve env r;
      log ← serve_all env later;
      mret ((r, a) :: log)
  end.

(** The versions returned to the successful publishes of one user, in the
    order they were served. *)
Definition published_version (username : string)
    (ra : request * option response) : option Z :=
  match ra with
  | (PostData u _, Some (Published v)) =>
      if String.eqb u username then Some v else None
  | _ => None
  end.

Definition published_versions (username : string)
    (log : list (request * option response)) : list Z :=
  omap (published_version username) log.

(** [m'] is [m] with some rows removed. *)
Definition pruned_of (m m' : gmap string SubRow) : Prop :=
  forall e, m' !! e = None \/ m' !! e = m !! e.

(** No subscription of [m] belongs to the user. *)
Definition no_subscription (username : string) (m : gmap string SubRow) : Prop :=
  forall e row, m !! e = Some row -> sub_username row <> username.

(** *** Push subscription handlers *)

(** What SQLite keeps of a value bound to a text or an integer column when the
    value is not of the column's own kind (a number bound to [endpoint], a
    string bound to [expiration_time]): left open, the handlers are modelled
    for every such conversion. *)
Record Binding : Type := {
  bind_text : json -> string;
  bind_integer : json -> option Z
}.

Definition column_text (b : Binding) (v : json) : string :=
  match v with
  | JStr s => s
  | _ => bind_text b v
  end.

Definition column_integer (b : Binding) (v : json) : option Z :=
  match v with
  | JNum n => Some n
  | _ => bind_integer b v
  end.

(** [v.k] on a value that may be [undefined] but is only read once it has
    been found truthy.  The names read through it ([endpoint], [keys],
    [p256dh], [auth], [expirationTime]) are not inherited by an object parsed
    from JSON. *)
Definition field (v : value) (k : string) : value :=
  match v with
  | Some o => get o k
  | None => None
  end.

Inductive push_response : Type :=
| PushOk
| PushKey (key : string)
| PushError (status : Z) (error : string).

(** [INSERT OR REPLACE INTO push_subscriptions (endpoint, username, p256dh,
    auth, expiration_time, created_at)] *)
Definition replace_subscription (e : string) (row : SubRow) : M unit :=
  fun w => (tt, {| data := data w;
                   push_subscriptions := <[e := row]> (push_subscriptions w);
                   ticks := ticks w; trace := trace w |}).

(** [DELETE FROM push_subscriptions WHERE username = ?] *)
Definition delete_user_subscriptions (username : string) : M unit :=
  fun w => (tt, {| data := data w;
                   push_subscriptions :=
                     filter (fun kv : string * SubRow => sub_username kv.2 <> username)
                            (push_subscriptions w);
                   ticks := ticks w; trace := trace w |}).

(** [DELETE FROM push_subscriptions WHERE endpoint = ? AND username = ?] *)
Definition delete_owned_subscription (e username : string) : M unit :=
  fun w => (tt, {| data := data w;
                   push_subscriptions :=
                     match push_subscriptions w !! e with
                     | Some row =>
                         if String.eqb (sub_username row) username
                         then delete e (push_subscriptions w)
                         else push_subscriptions w
                     | None => push_subscriptions w
                     end;
                   ticks := ticks w; trace := trace w |}).

(** [GET /api/push/public-key] *)
Definition push_public_key (env : Env) : M push_response :=
  if negb (isPushConfigured env) then mret (PushError 500 "Push not configured")
  else mret (PushKey (VAPID_PUBLIC_KEY env)).

(** [!sub || !sub.endpoint || !sub.keys || !sub.keys.p256dh || !sub.keys.auth]
    (on an array [sub.keys] is a method, but the test is decided at
    [sub.endpoint] by then). *)
Definition invalid_subscription (sub : value) : bool :=
  negb (truthy sub) || negb (truthy (field sub "endpoint"))
  || negb (truthy (field sub "keys"))
  || negb (truthy (field (field sub "keys") "p256dh"))
  || negb (truthy (field (field sub "keys") "auth")).

(** [POST /api/push/subscribe] for the user [authenticate] let in, with
    [req.body && req.body.subscription] as [sub]. *)
Definition push_subscribe (env : Env) (b : Binding) (username : string) (sub : value)
  : M push_response :=
  if negb (isPushConfigured env) then mret (PushError 500 "Push not configured") else
  if invalid_subscription sub then mret (PushError 400 "Invalid subscription") else
  now ← Date_now env;
  replace_subscription
    (match field sub "endpoint" with Some v => column_text b v | None => "" end)
    {| sub_username := username;
       sub_p256dh := match field (field sub "keys") "p256dh" with
                     | Some v => column_text b v | None => "" end;
       sub_auth := match field (field sub "keys") "auth" with
                   | Some v => column_text b v | None => "" end;
       sub_expiration_time :=
         if truthy (field sub "expirationTime")
         then match field sub "expirationTime" with
              | Some v => column_integer b v | None => None end
         else None;
       sub_created_at := now |} ;;
  mret PushOk.

(** [POST /api/push/unsubscribe], with [req.body && req.body.endpoint] as
    [e]. *)
Definition push_unsubscribe (b : Binding) (username : string) (e : value)
  : M push_response :=
  match e with
  | Some v =>
      if truthy e
      then delete_owned_subscription (column_text b v) username ;; mret PushOk
      else delete_user_subscriptions username ;; mret PushOk
  | None => delete_user_subscriptions username ;; mret PushOk
  end.

(** [POST /api/push/test]; the dispatcher does not throw in this model, so the
    [catch] is never entered. *)
Definition push_test (env : Env) (username : string) : M push_response :=
  if negb (isPushConfigured env) then mret (PushError 500 "Push not configured") else
  t ← Date_now env;
  sent ← sendPushToUser env username
           {| title := "测试通知"; body := Some (JStr "这是一条测试通知");
              url := "/"; tag := ("test-" ++ pretty t)%string |};
  if sent : bool then mret PushOk else mret (PushError 404 "No subscription").

(** *** Signing keys at start-up *)

(** The three variables of the process environment the keys are read from:
    [None] when unset. *)
Record ProcessEnv : Type := {
  env_VAPID_PUBLIC_KEY : option string;
  env_VAPID_PRIVATE_KEY : option string;
  env_VAPID_SUBJECT : option string
}.

(** [x || d] on a string that may be [undefined]. *)
Definition or_default (x : option string) (d : string) : string :=
  match x with
  | Some s => if String.eqb s "" then d else s
  | None => d
  end.

(** Whether a string that may be [undefined] is truthy. *)
Definition present (x : option string) : bool :=
  match x with
  | Some s => negb (String.eqb s "")
  | None => false
  end.

(** The module variables [VAPID_PUBLIC_KEY], [VAPID_PRIVATE_KEY] and
    [VAPID_SUBJECT]. *)
Record Keys : Type := {
  public_key : string;
  private_key : string;
  subject : string
}.

(** The variables as the module sets them when it loads. *)
Definition initial_keys (pe : ProcessEnv) : Keys :=
  {| public_key := or_default (env_VAPID_PUBLIC_KEY pe) "";
     private_key := or_default (env_VAPID_PRIVATE_KEY pe) "";
     subject := or_default (env_VAPID_SUBJECT pe) "mailto:admin@example.com" |}.

(** [isPushConfigured] on the variables as they stand. *)
Definition keys_configured (k : Keys) : bool :=
  negb (String.eqb (public_key k) "") && negb (String.eqb (private_key k) "").

(** The state start-up works on: the variables, the [settings] table (one
    value per key) and the calls of [webpush.setVapidDetails] made so far,
    each with the keys it was given.  The table is read and written without
    fault, and what that call does with keys it finds malformed is not
    modelled. *)
Record Boot : Type := {
  keys : Keys;
  settings : gmap string string;
  details_set : list Keys
}.

(** [saveVapidToDb] *)
Definition saveVapidToDb (k : Keys) (table : gmap string string) : gmap string string :=
  <["vapid_subject" := subject k]>
    (<["vapid_private_key" := private_key k]>
       (<["vapid_public_key" := public_key k]> table)).

(** The three assignments made from the stored settings: a stored key fills
    in for a variable that is empty, a stored subject for a subject the
    environment does not set. *)
Definition load_keys (pe : ProcessEnv) (stored : gmap string string) (k : Keys) : Keys :=
  {| public_key :=
       if negb (present (Some (public_key k))) && present (stored !! "vapid_public_key")
       then or_default (stored !! "vapid_public_key") ""
       else public_key k;
     private_key :=
       if negb (present (Some (private_key k))) && present (stored !! "vapid_private_key")
       then or_default (stored !! "vapid_private_key") ""
       else private_key k;
     subject :=
       if negb (present (env_VAPID_SUBJECT pe)) && present (stored !! "vapid_subject")
       then or_default (stored !! "vapid_subject") ""
       else subject k |}.

(** The assignments made from a generated pair. *)
Definition generated_keys (generated : string * string) (k : Keys) : Keys :=
  {| public_key := generated.1;
     private_key := generated.2;
     subject := if negb (present (Some (subject k)))
                then "mailto:admin@example.com" else subject k |}.

(** [ensureVapidKeys], with [generated] what [webpush.generateVAPIDKeys()]
    returns when it is called. *)
Definition ensureVapidKeys (pe : ProcessEnv) (generated : string * string) (b : Boot)
  : Boot :=
  if keys_configured (keys b)
  then {| keys := keys b; settings := settings b;
          details_set := details_set b ++ [keys b] |}
  else
    let loaded := load_keys pe (settings b) (keys b) in
    if negb (keys_configured loaded)
    then
      let fresh := generated_keys generated loaded in
      {| keys := fresh; settings := saveVapidToDb fresh (settings b);
         details_set := if keys_configured fresh
                        then details_set b ++ [fresh] else details_set b |}
    else
      {| keys := loaded; settings := settings b;
         details_set := details_set b ++ [loaded] |}.

(** The process as it starts: the variables from the environment, the table
    as the previous run left it. *)
Definition start (pe : ProcessEnv) (generated : string * string)
    (table : gmap string string) : Boot :=
  ensureVapidKeys pe generated
    {| keys := initial_keys pe; settings := table; details_set := [] |}.

(** *** The scan timer *)

(** The flag [pushScanRunning], and beside it the number of scans started and
    not yet settled. *)
Record Timer : Type := {
  pushScanRunning : bool;
  in_flight : nat
}.

(** What happens to the timer: the interval fires, or a scan that was started
    settles (its [finally] runs whether it resolved or rejected). *)
Inductive timer_event : Type :=
| Fires
| Settles.

Definition timer_step (env : Env) (t : Timer) (e : timer_event) : Timer :=
  match e with
  | Fires =>
      if negb (isPushConfigured env) || pushScanRunning t then t
      else {| pushScanRunning := true; in_flight := S (in_flight t) |}
  | Settles =>
      match in_flight t with
      | O => t
      | S n => {| pushScanRunning := false; in_flight := n |}
      end
  end.

Definition timer_run (env : Env) (t : Timer) (es : list timer_event) : Timer :=
  fold_left (timer_step env) es t.

(** *** Holiday calendar cache *)

(** How the request to the calendar source ends: with an error on the
    connection, or with a response of some status whose body is read whole. *)
Inductive upstream_reply : Type :=
| NoReply
| Reply (statusCode : Z) (content : string).

(** What the handler does not decide: [String.prototype.trim], the variable
    [HOLIDAY_JSON_URL] of the environment, how the source answers a request
    given the requests made before, which texts [JSON.parse] accepts, and
    whether [fs.writeFile] succeeds (a write that fails leaves no file). *)
Record HolidayEnv : Type := {
  trim : string -> string;
  HOLIDAY_JSON_URL : option string;
  https_get : list string -> string -> upstream_reply;
  JSON_valid : string -> bool;
  write_ok : string -> string -> bool
}.

(** The files of the [holidays] directory, by name, and the requests made to
    the source so far. *)
Record Holidays : Type := {
  files : gmap string string;
  requests : list string
}.

Inductive holiday_response : Type :=
| HolidayData (content : string)
| HolidayError (status : Z) (error : string).

Definition is_digit (c : Ascii.ascii) : bool :=
  (48 <=? Ascii.nat_of_ascii c)%nat && (Ascii.nat_of_ascii c <=? 57)%nat.

(** [/^\d{4}$/.test(year)] *)
Definition is_year (year : string) : bool :=
  (String.length year =? 4)%nat && forallb is_digit (String.list_ascii_of_string year).

(** [s.includes(pat)] *)
Fixpoint includes (pat s : string) : bool :=
  String.prefix pat s
  || match s with
     | EmptyString => false
     | String _ rest => includes pat rest
     end.

(** [s.replace(pat, rep)] for a string pattern: the first occurrence only.
    The replacement is taken literally, which it is when it holds no [$], as
    a year of four digits does. *)
Fixpoint replace_first (pat rep s : string) : string :=
  if String.prefix pat s
  then (rep ++ String.substring (String.length pat)
                                (String.length s - String.length pat) s)%string
  else match s with
       | EmptyString => EmptyString
       | String c rest => String c (replace_first pat rep rest)
       end.

Definition holiday_url (henv : HolidayEnv) (year : string) : string :=
  let base :=
    or_default (HOLIDAY_JSON_URL henv)
      "https://raw.githubusercontent.com/NateScarlet/holiday-cn/master/{year}.json" in
  if includes "{year}" base then replace_first "{year}" year base else base.

(** [GET /api/holidays/:year], with [req.params.year] as [raw]. *)
Definition holidays (henv : HolidayEnv) (raw : string) (h : Holidays)
  : holiday_response * Holidays :=
  let year := trim henv raw in
  if negb (is_year year) then (HolidayError 400 "Invalid year", h) else
  let file := (year ++ ".json")%string in
  match files h !! file with
  | Some content => (HolidayData content, h)
  | None =>
      let url := holiday_url henv year in
      let asked := {| files := files h; requests := requests h ++ [url] |} in
      match https_get henv (requests h) url with
      | NoReply => (HolidayError 500 "Fetch failed", asked)
      | Reply code content =>
          if negb (code =? 200) then (HolidayError 404 "Holiday data not found", asked) else
          if negb (JSON_valid henv content)
          then (HolidayError 500 "Invalid holiday data", asked) else
          if write_ok henv file content
          then (HolidayData content,
                {| files := <[file := content]> (files h);
                   requests := requests h ++ [url] |})
          else (HolidayError 500 "Write failed", asked)
      end
  end.

(** *** Account deletion *)

(** The accounts, by username, whatever an account holds, beside the state of
    the sync core. *)
Record Site (A : Type) : Type := {
  accounts : gmap string A;
  store : World
}.
Arguments accounts {A} _.
Arguments store {A} _.

Inductive admin_response : Type :=
| AdminOk
| AdminError (status : Z) (error : string).

(** The username a bound value selects in [WHERE username = ?]: none for
    [undefined] and [null], which bind as [NULL]. *)
Definition bound_username (b : Binding) (v : value) : option string :=
  match v with
  | None => None
  | Some JNull => None
  | Some j => Some (column_text b j)
  end.

(** [POST /api/admin/delete-user] for the administrator [caller] that
    [authenticate] and [requireAdmin] let in, with [req.body.targetUser] as
    [target]: the account and the task collection go, in that order. *)
Definition admin_delete_user {A} (b : Binding) (caller : string) (target : value)
    (s : Site A) : admin_response * Site A :=
  if strict_eq_string target caller then (AdminError 400 "不能删除自己", s) else
  match bound_username b target with
  | Some t =>
      (AdminOk,
       {| accounts := delete t (accounts s);
          store := {| data := delete t (data (store s));
                      push_subscriptions := push_subscriptions (store s);
                      ticks := ticks (store s); trace := trace (store s) |} |})
  | None => (AdminOk, s)
  end.

(** *** A small installation to run the model on *)

Definition example_env : Env := {|
  VAPID_PUBLIC_KEY := "BPk";
  VAPID_PRIVATE_KEY := "sk";
  clock := fun n => 1000 + Z.of_nat n;
  transport := fun _ _ _ => Delivered;
  StringToNumber := fun _ => None
|}.

(** The same, with a push service that answers 410 and a clock that stands
    still for the length of the run. *)
Definition stalled_env : Env := {|
  VAPID_PUBLIC_KEY := "BPk";
  VAPID_PRIVATE_KEY := "sk";
  clock := fun _ => 1000;
  transport := fun _ _ _ => Rejected (Some (JNum 410));
  StringToNumber := fun _ => None
|}.

Definition example_task : json :=
  JObj (list_to_map [("id", JStr "t1"); ("remindAt", JNum 1000); ("status", JStr "active")]).

Definition notified_task : json := set example_task "notifiedAt" (JNum 1000).

Definition example_world : World := {|
  data := {[ "alice" := {| json_data := Some (JArr [example_task]); version := 5 |} ]};
  push_subscriptions :=
    {[ "https://push.example/1" :=
         {| sub_username := "alice"; sub_p256dh := "key"; sub_auth := "secret";
            sub_expiration_time := None; sub_created_at := 1 |} ]};
  ticks := 0;
  trace := []
|}.

Definition stale_request : PublishBody :=
  {| pb_data := Some (JArr []); pb_version := Some (JNum 4); pb_force := Some (JBool false) |}.

Definition forced_request : PublishBody :=
  {| pb_data := Some (JArr []); pb_version := Some (JNum 4); pb_force := Some (JBool true) |}.

Definition unversioned_request : PublishBody :=
  {| pb_data := Some (JArr []); pb_version := None; pb_force := Some (JBool false) |}.

Definition current_request : PublishBody :=
  {| pb_data := Some (JArr []); pb_version := Some (JNum 1000); pb_force := None |}.

(** *** Further installations *)


Definition two_device_world : World := {|
  data := {[ "alice" := {| json_data := Some (JArr [example_task]); version := 5 |} ]};
  push_subscriptions :=
    <["https://push.example/2" :=
        {| sub_username := "alice"; sub_p256dh := "key2"; sub_auth := "secret2";
           sub_expiration_time := None; sub_created_at := 2 |}]>
      (push_subscriptions example_world);
  ticks := 0;
  trace := []
|}.


Definition test_payload : Payload :=
  {| title := "t"; body := None; url := "/"; tag := "x" |}.

Definition example_binding : Binding :=
  {| bind_text := fun _ => ""; bind_integer := fun _ => None |}.

Definition phone_subscription : value :=
  Some (JObj (list_to_map
    [("endpoint", JStr "https://push.example/1");
     ("keys", JObj (list_to_map [("p256dh", JStr "key9"); ("auth", JStr "secret9")]))])).

Definition bare_process : ProcessEnv :=
  {| env_VAPID_PUBLIC_KEY := None; env_VAPID_PRIVATE_KEY := None;
     env_VAPID_SUBJECT := None |}.

Definition half_set_process : ProcessEnv :=
  {| env_VAPID_PUBLIC_KEY := Some "BEnv"; env_VAPID_PRIVATE_KEY := None;
     env_VAPID_SUBJECT := None |}.

Definition example_holiday_env : HolidayEnv := {|
  trim := fun s => s;
  HOLIDAY_JSON_URL := None;
  https_get := fun _ _ => Reply 200 "{}";
  JSON_valid := fun _ => true;
  write_ok := fun _ _ => true
|}.

Definition offline_holiday_env : HolidayEnv := {|
  trim := fun s => s;
  HOLIDAY_JSON_URL := None;
  https_get := fun _ _ => NoReply;
  JSON_valid := fun _ => false;
  write_ok := fun _ _ => false
|}.

Definition empty_holidays : Holidays := {| files := ∅; requests := [] |}.

(** ** Properties *)

Section Properties.

Variable env : Env.

(** [w'] differs from [w] in the subscriptions and by the events [evs] only. *)
Definition extends (w w' : World) (evs : list event) : Prop :=
  data w' = data w /\ ticks w' = ticks w /\ trace w' = trace w ++ evs.

Lemma extends_refl w : extends w w [].
Proof. unfold extends. by rewrite app_nil_r. Qed.

Lemma extends_trans w1 w2 w3 e1 e2 :
  extends w1 w2 e1 -> extends w2 w3 e2 -> extends w1 w3 (e1 ++ e2).
Proof.
  intros (Hd1 & Ht1 & Hr1) (Hd2 & Ht2 & Hr2). unfold extends.
  rewrite Hd2, Ht2, Hr2, Hr1, app_assoc. done.
Qed.

Lemma run_bind {A B} (m : M A) (f : A -> M B) w :
  run (m ≫= f) w = run (f (run m w).1) (run m w).2.
Proof. unfold run, mbind, M_bind. by destruct (m w). Qed.

Lemma run_ret {A} (a : A) w : run (mret a) w = (a, w).
Proof. done. Qed.

Lemma new_events_extends {A} (m : M A) w evs :
  extends w (run m w).2 evs -> new_events m w = evs.
Proof.
  intros (_ & _ & Hr). unfold new_events. rewrite Hr.
  by rewrite drop_app_length.
Qed.

(** One delivery: the trace gains the attempt, and the subscription goes when
    the answer is 404 or 410. *)
Lemma send_job_run p sub w :
  let r := transport env (trace w) sub p in
  let w' := (run (send_job env p sub) w).2 in
  extends w w' [Send sub p r]
  /\ push_subscriptions w' =
     if gone r then delete (endpoint sub) (push_subscriptions w)
     else push_subscriptions w.
Proof.
  unfold send_job, run, mbind, M_bind, sendNotification, gone, extends. simpl.
  destruct (transport env (trace w) sub p) as [|code]; simpl; [done|].
  destruct (strict_eq_number code 404 || strict_eq_number code 410); done.
Qed.

(** The fan-out: one attempt per subscription, in order, and an endpoint is
    gone afterwards exactly when one of the attempts reported it gone. *)
Lemma fan_out_run p subs : forall w,
  let w' := (run (for_each (send_job env p) subs) w).2 in
  exists evs,
    extends w w' evs
    /\ attempted evs = subs
    /\ calls evs = []
    /\ forall e, push_subscriptions w' !! e =
                 if reported_gone e evs then None else push_subscriptions w !! e.
Proof.
  induction subs as [|sub subs IH]; intros w; simpl.
  - exists []. split; [apply extends_refl|]. done.
  - rewrite run_bind.
    destruct (send_job_run p sub w) as [Hext Hsubs].
    set (w1 := (run (send_job env p sub) w).2) in *.
    destruct (IH w1) as (evs & Hext' & Hatt & Hcalls & Hlook).
    exists ([Send sub p (transport env (trace w) sub p)] ++ evs).
    split; [by eapply extends_trans|].
    split; [simpl; by rewrite Hatt|].
    split; [simpl; done|].
    intros e. rewrite Hlook, Hsubs. simpl.
    destruct (reported_gone e evs); [by rewrite orb_true_r|].
    rewrite orb_false_r.
    destruct (gone (transport env (trace w) sub p)); rewrite ?andb_false_r; [|done].
    rewrite andb_true_r.
    destruct (String.eqb_spec (endpoint sub) e) as [->|Hne].
    + by rewrite lookup_delete_eq.
    + by rewrite lookup_delete_ne.
Qed.

Lemma calls_app e1 e2 : calls (e1 ++ e2) = calls e1 ++ calls e2.
Proof. apply omap_app. Qed.

Lemma successes_app e1 e2 : successes (e1 ++ e2) = successes e1 ++ successes e2.
Proof. apply omap_app. Qed.

Lemma attempted_app e1 e2 : attempted (e1 ++ e2) = attempted e1 ++ attempted e2.
Proof. apply omap_app. Qed.

Lemma successes_no_calls evs : calls evs = [] -> successes evs = [].
Proof.
  induction evs as [|[u p b|sub p r] evs IH]; simpl; [done| |done].
  discriminate.
Qed.

(** The dispatcher: the deliveries of the fan-out, then its own return. *)
Lemma sendPushToUser_run u p w :
  let res := run (sendPushToUser env u p) w in
  let subs := (run (select_subscriptions u) w).1 in
  exists evs,
    extends w res.2 (evs ++ [Dispatch u p res.1])
    /\ calls evs = []
    /\ attempted evs = (if isPushConfigured env then subs else [])
    /\ res.1 = isPushConfigured env && negb (length subs =? 0)%nat
    /\ forall e, push_subscriptions res.2 !! e =
                 if reported_gone e evs then None else push_subscriptions w !! e.
Proof.
  unfold sendPushToUser. simpl. rewrite run_bind.
  destruct (isPushConfigured env); simpl.
  - rewrite run_bind. simpl.
    set (subs := List.map _ _).
    destruct (length subs =? 0)%nat eqn:Hlen; simpl.
    + exists []. apply Nat.eqb_eq, nil_length_inv in Hlen. rewrite Hlen.
      unfold extends; simpl. done.
    + rewrite run_bind. simpl.
      destruct (fan_out_run p subs w) as (evs & (Hd & Ht & Hr) & Hatt & Hc & Hl).
      exists evs. unfold extends. simpl. rewrite Hd, Ht, Hr, <- app_assoc. done.
  - exists []. unfold extends; simpl. done.
Qed.

Lemma mark_due_get now task k :
  truthy (get task "remindAt") = true ->
  get (mark now task true) k =
    if String.eqb k "notifiedAt" then Some (JNum now) else get task k.
Proof.
  intros Hr. destruct task as [| | | | |m]; try discriminate. simpl.
  destruct (String.eqb_spec k "notifiedAt") as [->|Hne].
  - apply lookup_insert_eq.
  - by apply lookup_insert_ne.
Qed.

Lemma due_remindAt now task :
  due env now task = true -> truthy (get task "remindAt") = true.
Proof.
  unfold due. destruct (excluded task); [done|].
  destruct (truthy (get task "remindAt")); done.
Qed.

(** One pass of the task loop. *)
Lemma scan_task_run u now task w :
  let res := run (scan_task env u now task) w in
  exists evs flag,
    extends w res.2 evs
    /\ res.1 = (mark now task flag, flag)
    /\ (flag = true -> due env now task = true)
    /\ calls evs = (if due env now task then [(u, buildPushPayload task)] else [])
    /\ successes evs = (if flag then [(u, buildPushPayload task)] else []).
Proof.
  unfold scan_task. destruct (due env now task) eqn:Hdue; simpl.
  - rewrite run_bind.
    destruct (sendPushToUser_run u (buildPushPayload task) w)
      as (evs & Hext & Hc & _ & _ & _).
    set (res := run (sendPushToUser env u (buildPushPayload task)) w) in *.
    exists (evs ++ [Dispatch u (buildPushPayload task) res.1]), res.1.
    split; [by destruct res.1|].
    split; [by destruct res.1|].
    split; [done|].
    rewrite calls_app, successes_app, Hc, (successes_no_calls _ Hc). simpl.
    split; [done|]. by destruct res.1.
  - exists [], false. split; [apply extends_refl|]. done.
Qed.

(** The task loop. *)
Lemma scan_tasks_run u now tasks : forall w,
  let res := run (scan_tasks env u now tasks) w in
  exists evs flags,
    extends w res.2 evs
    /\ length flags = length tasks
    /\ res.1 = (zip_with (mark now) tasks flags, existsb id flags)
    /\ Forall2 (fun t f => f = true -> due env now t = true) tasks flags
    /\ calls evs = List.map (fun t => (u, buildPushPayload t)) (List.filter (due env now) tasks)
    /\ successes evs = List.map (fun t => (u, buildPushPayload t)) (dispatched tasks flags).
Proof.
  induction tasks as [|task tasks IH]; intros w; simpl.
  - exists [], []. split; [apply extends_refl|]. done.
  - rewrite !run_bind. simpl.
    destruct (scan_task_run u now task w) as (e1 & f & Hext1 & Hres1 & Hf & Hc1 & Hs1).
    set (w1 := (run (scan_task env u now task) w).2) in *.
    destruct (IH w1) as (e2 & fs & Hext2 & Hlen & Hres2 & Hfs & Hc2 & Hs2).
    exists (e1 ++ e2), (f :: fs).
    split; [by eapply extends_trans|].
    split; [simpl; by rewrite Hlen|].
    split; [rewrite Hres1, Hres2; done|].
    split; [by constructor|].
    rewrite calls_app, successes_app, Hc1, Hc2, Hs1, Hs2.
    split.
    + by destruct (due env now task).
    + unfold dispatched. simpl. by destruct f.
Qed.

(** One row of the scan: the collection is written back, with the reading of
    the clock at the write, exactly when some pass set [changed]. *)
Lemma scan_row_run now u c w :
  let res := run (scan_row env now (u, c)) w in
  let tasks := tasks_of c in
  exists evs flags,
    trace res.2 = trace w ++ evs
    /\ length flags = length tasks
    /\ Forall2 (fun t f => f = true -> due env now t = true) tasks flags
    /\ calls evs = List.map (fun t => (u, buildPushPayload t)) (List.filter (due env now) tasks)
    /\ successes evs = List.map (fun t => (u, buildPushPayload t)) (dispatched tasks flags)
    /\ ticks res.2 = (if existsb id flags then S (ticks w) else ticks w)
    /\ data res.2 =
       if existsb id flags
       then <[u := {| json_data := Some (JArr (zip_with (mark now) tasks flags));
                      version := clock env (ticks w) |}]> (data w)
       else data w.
Proof.
  assert (Hskip : exists evs flags,
    trace w = trace w ++ evs /\ length flags = @length json []
    /\ Forall2 (fun t f => f = true -> due env now t = true) [] flags
    /\ calls evs = List.map (fun t => (u, buildPushPayload t)) (List.filter (due env now) [])
    /\ successes evs = List.map (fun t => (u, buildPushPayload t)) (dispatched [] flags)
    /\ ticks w = (if existsb id flags then S (ticks w) else ticks w)
    /\ data w = if existsb id flags
       then <[u := {| json_data := Some (JArr (zip_with (mark now) [] flags));
                      version := clock env (ticks w) |}]> (data w)
       else data w).
  { exists [], []. simpl. rewrite app_nil_r. repeat split; constructor. }
  unfold scan_row. cbn [fst snd].
  destruct c as [[| | | |[|t ts]|]|]; try exact Hskip.
  unfold tasks_of. remember (t :: ts) as l eqn:Hl. clear Hl Hskip.
  rewrite run_bind.
  destruct (scan_tasks_run u now l w)
    as (evs & flags & (Hd & Ht & Hr) & Hlen & Hres & Hdue & Hc & Hs).
  exists evs, flags.
  rewrite Hres. cbn [fst snd].
  destruct (existsb id flags).
  - rewrite run_bind. unfold run, Date_now, replace_data in *.
    cbn [fst snd data ticks trace]. rewrite Hd, Ht, Hr. done.
  - rewrite run_ret. cbn [fst snd]. unfold run in *. rewrite Hd, Ht, Hr. done.
Qed.

Lemma successes_of_app u e1 e2 :
  successes_of u (e1 ++ e2) = successes_of u e1 ++ successes_of u e2.
Proof. unfold successes_of. by rewrite successes_app, omap_app. Qed.

Lemma calls_of_app u e1 e2 :
  calls_of u (e1 ++ e2) = calls_of u e1 ++ calls_of u e2.
Proof. unfold calls_of. by rewrite calls_app, omap_app. Qed.

Lemma calls_of_row u u0 (l : list json) evs :
  calls evs = List.map (fun t => (u0, buildPushPayload t)) l ->
  calls_of u evs = if String.eqb u0 u then List.map buildPushPayload l else [].
Proof.
  intros H. unfold calls_of. rewrite H. clear H.
  induction l as [|t l IH]; cbn [List.map omap list_omap fst snd].
  - by destruct (String.eqb u0 u).
  - rewrite IH. by destruct (String.eqb u0 u).
Qed.

Lemma successes_of_row u u0 (l : list json) evs :
  successes evs = List.map (fun t => (u0, buildPushPayload t)) l ->
  successes_of u evs = if String.eqb u0 u then List.map buildPushPayload l else [].
Proof.
  intros H. unfold successes_of. rewrite H. clear H.
  induction l as [|t l IH]; cbn [List.map omap list_omap fst snd].
  - by destruct (String.eqb u0 u).
  - rewrite IH. by destruct (String.eqb u0 u).
Qed.

(** The row loop, over rows of distinct usernames: a user's stored row is
    touched by the pass over that user's row only. *)
Lemma scan_rows_run now rows : NoDup rows.*1 -> forall w,
  let w' := (run (for_each (scan_row env now) rows) w).2 in
  exists evs,
    trace w' = trace w ++ evs
    /\ (ticks w <= ticks w')%nat
    /\ (forall u, u ∉ rows.*1 ->
         data w' !! u = data w !! u /\ successes_of u evs = [] /\ calls_of u evs = [])
    /\ (forall u c, (u, c) ∈ rows ->
         exists flags k,
           (ticks w <= k)%nat
           /\ calls_of u evs = List.map buildPushPayload (List.filter (due env now) (tasks_of c))
           /\ length flags = length (tasks_of c)
           /\ Forall2 (fun t f => f = true -> due env now t = true) (tasks_of c) flags
           /\ successes_of u evs = List.map buildPushPayload (dispatched (tasks_of c) flags)
           /\ data w' !! u =
              if existsb id flags
              then Some {| json_data := Some (JArr (zip_with (mark now) (tasks_of c) flags));
                           version := clock env k |}
              else data w !! u).
Proof.
  induction rows as [|[u0 c0] rows IH]; intros Hnd w; simpl.
  - exists []. rewrite app_nil_r. split; [done|]. split; [done|]. split; [done|].
    intros u c Hin. by apply elem_of_nil in Hin.
  - rewrite run_bind. apply NoDup_cons in Hnd as [Hfresh Hnd].
    destruct (scan_row_run now u0 c0 w)
      as (e1 & flags & Hr1 & Hlen & Hdue & Hc1 & Hs1 & Ht1 & Hd1).
    set (w1 := (run (scan_row env now (u0, c0)) w).2) in *.
    destruct (IH Hnd w1) as (e2 & Hr2 & Ht2 & Hout & Hin).
    assert (Hticks : (ticks w <= ticks w1)%nat).
    { rewrite Ht1. destruct (existsb id flags); lia. }
    pose proof (successes_of_row u0 u0 _ _ Hs1) as Hown.
    pose proof (calls_of_row u0 u0 _ _ Hc1) as Hcown.
    rewrite String.eqb_refl in Hown, Hcown.
    assert (Hother : forall u, u ≠ u0 ->
              data w1 !! u = data w !! u /\ successes_of u e1 = [] /\ calls_of u e1 = []).
    { intros u Hne. split; [|split].
      - rewrite Hd1. destruct (existsb id flags); [|done].
        by rewrite lookup_insert_ne.
      - rewrite (successes_of_row u u0 _ _ Hs1).
        destruct (String.eqb_spec u0 u); [congruence|done].
      - rewrite (calls_of_row u u0 _ _ Hc1).
        destruct (String.eqb_spec u0 u); [congruence|done]. }
    exists (e1 ++ e2). split; [by rewrite Hr2, Hr1, app_assoc|].
    split; [lia|]. split.
    + intros u Hu. apply not_elem_of_cons in Hu as [Hne Hu].
      destruct (Hout u Hu) as (Hd & Hs & Hc). destruct (Hother u Hne) as (Hd' & Hs' & Hc').
      by rewrite Hd, Hd', successes_of_app, calls_of_app, Hs, Hs', Hc, Hc'.
    + intros u c Hmem. apply elem_of_cons in Hmem as [Heq|Hmem].
      * injection Heq as -> ->.
        destruct (Hout u0 Hfresh) as (Hd & Hs & Hc).
        exists flags, (ticks w). split; [done|].
        split; [by rewrite calls_of_app, Hc, app_nil_r, Hcown|].
        split; [done|]. split; [done|].
        rewrite successes_of_app, Hs, app_nil_r, Hown. split; [done|].
        rewrite Hd, Hd1. destruct (existsb id flags); [|done].
        by rewrite lookup_insert_eq.
      * assert (Hne : u ≠ u0).
        { intros ->. apply Hfresh. apply list_elem_of_fmap. by exists (u0, c). }
        destruct (Hin u c Hmem) as (fs & k & Hk & Hc & Hl & Hf & Hs & Hd).
        destruct (Hother u Hne) as (Hd' & Hs' & Hc').
        exists fs, k. split; [lia|].
        split; [by rewrite calls_of_app, Hc', Hc|].
        split; [done|]. split; [done|].
        rewrite successes_of_app, Hs', Hs. split; [done|].
        by rewrite Hd, Hd'.
Qed.

(** *** The sync handlers *)

Lemma publish_rejects u req w :
  (negb (truthy (pb_force req))
   && lt (StringToNumber env) (ToPrimitive (pb_version req))
         (PNumber (Some (stored_version u w)))) = true ->
  run (publish env u req) w = (Conflict (stored_version u w), w).
Proof.
  intros H. unfold publish, stored_version, run, mbind, M_bind, select_data in *.
  by rewrite H.
Qed.

Lemma publish_writes u req w :
  (negb (truthy (pb_force req))
   && lt (StringToNumber env) (ToPrimitive (pb_version req))
         (PNumber (Some (stored_version u w)))) = false ->
  let res := run (publish env u req) w in
  res.1 = Published (clock env (ticks w))
  /\ data res.2 = <[u := {| json_data := pb_data req; version := clock env (ticks w) |}]> (data w)
  /\ ticks res.2 = S (ticks w).
Proof.
  intros H. unfold publish, stored_version, run, mbind, M_bind, select_data in *.
  by rewrite H.
Qed.

(** C1 (conflict rejection): a publish that is not forced and whose client
    version has a numeric value below the version the store holds for the user
    is answered [Conflict] with that stored version, and leaves the whole
    state as it was, so that nothing is written. *)
Theorem publish_stale_conflict u req v w :
  truthy (pb_force req) = false ->
  ToNumber (StringToNumber env) (ToPrimitive (pb_version req)) = Some v ->
  v < stored_version u w ->
  run (publish env u req) w = (Conflict (stored_version u w), w).
Proof.
  intros Hforce Hver Hlt. apply publish_rejects.
  rewrite Hforce. simpl. unfold lt, less_than.
  assert (Hnum : (match ToNumber (StringToNumber env) (ToPrimitive (pb_version req)),
                        ToNumber (StringToNumber env) (PNumber (Some (stored_version u w)))
                  with
                  | Some a, Some b => Some (a <? b)
                  | _, _ => None
                  end) = Some true).
  { rewrite Hver. simpl. f_equal. by apply Z.ltb_lt. }
  destruct (ToPrimitive (pb_version req)); by rewrite Hnum.
Qed.

(** C5 (force bypass): a forced publish succeeds whatever the client version
    and the stored version are; it returns the reading of the clock taken at
    the write, and the user's row becomes the submitted collection with that
    reading as version, replacing whatever was stored. *)
Theorem publish_force_overwrites u req w :
  truthy (pb_force req) = true ->
  let res := run (publish env u req) w in
  res.1 = Published (clock env (ticks w))
  /\ data res.2 = <[u := {| json_data := pb_data req; version := clock env (ticks w) |}]> (data w).
Proof.
  intros Hforce. destruct (publish_writes u req w) as (H1 & H2 & _); [|done].
  by rewrite Hforce.
Qed.

(** C9 (absent client version): when the body has no [version] field the
    comparison [undefined < serverVersion] is false whatever the stored
    version is, so the publish is never answered [Conflict]: it succeeds and
    overwrites the stored collection. *)
Theorem publish_without_version_overwrites u req w :
  pb_version req = None ->
  let res := run (publish env u req) w in
  res.1 = Published (clock env (ticks w))
  /\ data res.2 = <[u := {| json_data := pb_data req; version := clock env (ticks w) |}]> (data w).
Proof.
  intros Hver. destruct (publish_writes u req w) as (H1 & H2 & _); [|done].
  rewrite Hver. simpl. unfold lt. simpl. apply andb_false_r.
Qed.

(** C6 (fetch): for every user the read answers with data and a version and
    leaves the state alone; it gives the empty array and version 0 when the
    store holds no row for the user, and the stored collection with the stored
    version when it holds one. *)
Theorem fetch_returns_stored u w :
  (exists d v, run (fetch u) w = (Fetched d v, w))
  /\ (data w !! u = None -> run (fetch u) w = (Fetched (JArr []) 0, w))
  /\ (forall r j, data w !! u = Some r -> json_data r = Some j ->
        run (fetch u) w = (Fetched j (version r), w)).
Proof.
  unfold fetch, run, mbind, M_bind, select_data. simpl.
  split; [eauto|]. split.
  - by intros ->.
  - intros r j -> ->. done.
Qed.

(** *** The reminder scanner *)

Lemma scan_run w :
  isPushConfigured env = true ->
  run (scanAndSendReminders env) w =
    run (for_each (scan_row env (clock env (ticks w)))
                  (List.map (fun kv => (kv.1, json_data kv.2)) (map_to_list (data w))))
        {| data := data w; push_subscriptions := push_subscriptions w;
           ticks := S (ticks w); trace := trace w |}.
Proof.
  intros Hcfg. unfold scanAndSendReminders. rewrite Hcfg. simpl.
  rewrite !run_bind. done.
Qed.

Lemma rows_usernames (m : gmap string DataRow) :
  (List.map (fun kv => (kv.1, json_data kv.2)) (map_to_list m)).*1 = (map_to_list m).*1.
Proof. induction (map_to_list m) as [|kv l IH]; [done|]. cbn. f_equal. exact IH. Qed.

Lemma rows_stored (m : gmap string DataRow) u r :
  m !! u = Some r ->
  (u, json_data r) ∈ List.map (fun kv => (kv.1, json_data kv.2)) (map_to_list m).
Proof.
  intros H. apply elem_of_map_to_list in H.
  induction (map_to_list m) as [|kv l IH]; [by apply elem_of_nil in H|].
  simpl. apply elem_of_cons in H as [<-|H]; [by left|right; by apply IH].
Qed.

(** A scan calls the dispatcher for a user once for each task of the stored
    collection that passes the guards of the task loop at the time the scan
    starts, in the order of the collection. *)
Lemma scan_calls u r w :
  isPushConfigured env = true ->
  data w !! u = Some r ->
  calls_of u (new_events (scanAndSendReminders env) w) =
    List.map buildPushPayload
      (List.filter (due env (clock env (ticks w))) (tasks_of (json_data r))).
Proof.
  intros Hcfg Hrow. unfold new_events. rewrite (scan_run w Hcfg).
  set (rows := List.map _ _).
  destruct (scan_rows_run (clock env (ticks w)) rows) with
    (w := {| data := data w; push_subscriptions := push_subscriptions w;
             ticks := S (ticks w); trace := trace w |}) as (evs & Htr & _ & _ & Hin).
  { unfold rows. rewrite rows_usernames. apply NoDup_fst_map_to_list. }
  destruct (Hin u (json_data r)) as (flags & k & _ & Hc & _).
  { by apply rows_stored. }
  rewrite Htr. simpl. by rewrite drop_app_length.
Qed.

(** The part one task of the stored collection has in the calls of a scan. *)
Lemma scan_calls_split u r w pre task post :
  isPushConfigured env = true ->
  data w !! u = Some r ->
  tasks_of (json_data r) = pre ++ task :: post ->
  calls_of u (new_events (scanAndSendReminders env) w) =
    List.map buildPushPayload (List.filter (due env (clock env (ticks w))) pre)
    ++ (if due env (clock env (ticks w)) task then [buildPushPayload task] else [])
    ++ List.map buildPushPayload (List.filter (due env (clock env (ticks w))) post).
Proof.
  intros Hcfg Hrow Htasks. rewrite (scan_calls u r w Hcfg Hrow), Htasks.
  rewrite List.filter_app, List.map_app. f_equal. simpl.
  by destruct (due env (clock env (ticks w)) task).
Qed.

(** On a numeric [remindAt] the last guard is the complement of the half-open
    window. *)
Lemma outside_window_number now task r :
  get task "remindAt" = Some (JNum r) ->
  outside_window env now task = negb ((r <=? now) && (now <? r + PUSH_WINDOW_MS)).
Proof.
  intros Hr. unfold outside_window, lt, ge. rewrite Hr. simpl.
  destruct (Z.ltb_spec now r), (Z.leb_spec r now), (Z.ltb_spec now (r + PUSH_WINDOW_MS));
    simpl; try reflexivity; unfold PUSH_WINDOW_MS in *; lia.
Qed.

Lemma already_notified_number task r n :
  get task "remindAt" = Some (JNum r) ->
  get task "notifiedAt" = Some (JNum n) ->
  already_notified env task = negb (n =? 0) && (r <=? n).
Proof.
  intros Hr Hn. unfold already_notified, ge. rewrite Hr, Hn. simpl.
  destruct (Z.ltb_spec n r), (Z.leb_spec r n); try reflexivity; lia.
Qed.

Lemma already_notified_absent task :
  truthy (get task "notifiedAt") = false -> already_notified env task = false.
Proof. intros H. unfold already_notified. by rewrite H. Qed.

Lemma scan_task_calls u now task w :
  calls (new_events (scan_task env u now task) w) =
    if due env now task then [(u, buildPushPayload task)] else [].
Proof.
  destruct (scan_task_run u now task w) as (evs & flag & Hext & _ & _ & Hc & _).
  by rewrite (new_events_extends _ _ _ Hext).
Qed.

Lemma scan_task_skips u now task w :
  due env now task = false -> run (scan_task env u now task) w = (task, false, w).
Proof. intros H. unfold scan_task. by rewrite H. Qed.



Lemma rescans_skip u task nows : forall w,
  (forall now, due env now task = false) ->
  run (rescans env u nows task) w = (task, w).
Proof.
  induction nows as [|now nows IH]; intros w Hdue; simpl; [done|].
  rewrite run_bind, (scan_task_skips u now task w (Hdue now)). simpl.
  by apply IH.
Qed.

(** C3 (idempotent notification): a task whose [notifiedAt] is a non-zero
    number at or after its numeric [remindAt] is passed over by every scan,
    whatever the scan time and the state: over any series of scans the
    dispatcher is never called for it, and the task and the state stay as they
    were, so that it meets the next scan in the same condition.  A whole scan
    calls the dispatcher for the user exactly as it would were the task not in
    the stored collection. *)
Theorem notified_never_redispatched u task r n nows w :
  get task "remindAt" = Some (JNum r) ->
  get task "notifiedAt" = Some (JNum n) ->
  n <> 0 ->
  r <= n ->
  calls (new_events (rescans env u nows task) w) = []
  /\ run (rescans env u nows task) w = (task, w)
  /\ (forall now w', calls (new_events (scan_task env u now task) w') = [])
  /\ (forall w' row pre post,
        isPushConfigured env = true ->
        data w' !! u = Some row ->
        tasks_of (json_data row) = pre ++ task :: post ->
        calls_of u (new_events (scanAndSendReminders env) w') =
          List.map buildPushPayload
            (List.filter (due env (clock env (ticks w'))) (pre ++ post))).
Proof.
  intros Hr Hn Hn0 Hle.
  assert (Hdue : forall now, due env now task = false).
  { intros now. unfold due. rewrite (already_notified_number task r n Hr Hn).
    destruct (excluded task); [done|].
    destruct (negb (truthy (get task "remindAt"))); [done|].
    destruct (Z.eqb_spec n 0); [done|]. destruct (Z.leb_spec r n); [done|lia]. }
  split; [|split; [|split]].
  - unfold new_events. rewrite (rescans_skip u task nows w Hdue). simpl.
    by rewrite drop_all.
  - by apply rescans_skip.
  - intros now w'. by rewrite scan_task_calls, Hdue.
  - intros w' row pre post Hcfg Hrow Htasks.
    rewrite (scan_calls_split u row w' pre task post Hcfg Hrow Htasks), Hdue.
    by rewrite List.filter_app, List.map_app.
Qed.

Lemma get_notifiedAt_frame m v k :
  k <> "notifiedAt" ->
  get (JObj (<["notifiedAt" := v]> m)) k = get (JObj (delete "notifiedAt" m)) k.
Proof. intros Hne. simpl. by rewrite lookup_insert_ne, lookup_delete_ne. Qed.

(** C10 (zero stamps): a task whose [remindAt] is 0 is passed over at every
    scan time, those of [0, PUSH_WINDOW_MS) included: the dispatcher is not
    called and the task is left as it is, and a whole scan calls the
    dispatcher as it would without the task.  A [notifiedAt] of 0 never counts
    as already notified, and the task carrying it is treated by a pass as the
    same task without the field: the same guards, the same call. *)
Theorem zero_stamps_read_as_absent u now :
  (forall task w,
     get task "remindAt" = Some (JNum 0) ->
     run (scan_task env u now task) w = (task, false, w)
     /\ calls (new_events (scan_task env u now task) w) = []
     /\ forall row pre post,
          isPushConfigured env = true ->
          data w !! u = Some row ->
          tasks_of (json_data row) = pre ++ task :: post ->
          calls_of u (new_events (scanAndSendReminders env) w) =
            List.map buildPushPayload
              (List.filter (due env (clock env (ticks w))) (pre ++ post)))
  /\ (forall m w,
       already_notified env (JObj (<["notifiedAt" := JNum 0]> m)) = false
       /\ due env now (JObj (<["notifiedAt" := JNum 0]> m))
          = due env now (JObj (delete "notifiedAt" m))
       /\ calls (new_events (scan_task env u now (JObj (<["notifiedAt" := JNum 0]> m))) w)
          = calls (new_events (scan_task env u now (JObj (delete "notifiedAt" m))) w)).
Proof.
  split.
  - intros task w Hr.
    assert (Hdue : forall t, due env t task = false).
    { intros t. unfold due. rewrite Hr. simpl. by destruct (excluded task). }
    split; [by apply scan_task_skips|]. split; [by rewrite scan_task_calls, Hdue|].
    intros row pre post Hcfg Hrow Htasks.
    rewrite (scan_calls_split u row w pre task post Hcfg Hrow Htasks), Hdue.
    by rewrite List.filter_app, List.map_app.
  - intros m w.
    assert (Hnot : already_notified env (JObj (<["notifiedAt" := JNum 0]> m)) = false).
    { apply already_notified_absent. simpl. by rewrite lookup_insert_eq. }
    assert (Hdue : due env now (JObj (<["notifiedAt" := JNum 0]> m))
                   = due env now (JObj (delete "notifiedAt" m))).
    { unfold due. rewrite Hnot.
      rewrite (already_notified_absent (JObj (delete "notifiedAt" m)))
        by (simpl; by rewrite lookup_delete_eq).
      unfold excluded, outside_window.
      rewrite !(get_notifiedAt_frame m (JNum 0)) by done. done. }
    split; [done|]. split; [done|].
    rewrite !scan_task_calls, Hdue. unfold buildPushPayload.
    rewrite !(get_notifiedAt_frame m (JNum 0)) by done. done.
Qed.


(** *** Versions over a series of requests *)

Lemma scan_ticks w : (ticks w <= ticks (run (scanAndSendReminders env) w).2)%nat.
Proof.
  destruct (isPushConfigured env) eqn:Hcfg.
  - rewrite (scan_run w Hcfg).
    set (rows := List.map _ _).
    destruct (scan_rows_run (clock env (ticks w)) rows) with
      (w := {| data := data w; push_subscriptions := push_subscriptions w;
               ticks := S (ticks w); trace := trace w |}) as (evs & _ & Ht & _).
    { unfold rows. rewrite rows_usernames. apply NoDup_fst_map_to_list. }
    simpl in Ht. lia.
  - unfold scanAndSendReminders. rewrite Hcfg. simpl. lia.
Qed.

Lemma publish_ticks u req w : (ticks w <= ticks (run (publish env u req) w).2)%nat.
Proof.
  destruct (negb (truthy (pb_force req))
            && lt (StringToNumber env) (ToPrimitive (pb_version req))
                  (PNumber (Some (stored_version u w)))) eqn:Hguard.
  - rewrite (publish_rejects u req w Hguard). simpl. lia.
  - destruct (publish_writes u req w Hguard) as (_ & _ & Ht). lia.
Qed.

Lemma serve_ticks r w : (ticks w <= ticks (run (serve env r) w).2)%nat.
Proof.
  destruct r as [u req|u|]; cbn [serve]; rewrite run_bind, run_ret; cbn [snd].
  - apply publish_ticks.
  - done.
  - apply scan_ticks.
Qed.

(** A version returned by a publish is the reading the clock gives at that
    moment, and the clock has been read once more when the publish is done. *)
Lemma serve_published u r w v :
  published_version u (r, (run (serve env r) w).1) = Some v ->
  v = clock env (ticks w) /\ (ticks w < ticks (run (serve env r) w).2)%nat.
Proof.
  destruct r as [u' req|u'|]; cbn [serve]; rewrite run_bind, run_ret; cbn [fst snd];
    [|by unfold fetch|done].
  destruct (negb (truthy (pb_force req))
            && lt (StringToNumber env) (ToPrimitive (pb_version req))
                  (PNumber (Some (stored_version u' w)))) eqn:Hguard.
  - by rewrite (publish_rejects u' req w Hguard).
  - destruct (publish_writes u' req w Hguard) as (Hres & _ & Ht).
    rewrite Hres, Ht. cbn. destruct (String.eqb u' u); [|done].
    intros [= <-]. split; [done|lia].
Qed.

(** Over a series of requests each version returned is a reading of the clock,
    and later publishes read the clock later. *)
Lemma serve_all_versions u rs : forall w,
  (forall i j, (i < j)%nat -> clock env i < clock env j) ->
  StronglySorted Z.lt (published_versions u (run (serve_all env rs) w).1)
  /\ Forall (fun v => exists k, (ticks w <= k)%nat /\ v = clock env k)
            (published_versions u (run (serve_all env rs) w).1).
Proof.
  induction rs as [|r rs IH]; intros w Hclock; cbn [serve_all].
  - split; constructor.
  - rewrite !run_bind, run_ret. cbn [fst].
    pose proof (serve_ticks r w) as Hticks.
    pose proof (serve_published u r w) as Hpub.
    set (w1 := (run (serve env r) w).2) in *.
    destruct (IH w1 Hclock) as [Hsorted Hall].
    unfold published_versions in *. cbn [omap list_omap].
    destruct (published_version u (r, (run (serve env r) w).1)) as [v|].
    + destruct (Hpub v eq_refl) as [-> Hlt]. split.
      * constructor; [done|]. eapply Forall_impl; [exact Hall|]. cbn.
        intros v (k & Hk & ->). apply Hclock. lia.
      * constructor; [by exists (ticks w)|].
        eapply Forall_impl; [exact Hall|]. cbn.
        intros v (k & Hk & ->). exists k. split; [lia|done].
    + split; [done|]. eapply Forall_impl; [exact Hall|]. cbn.
      intros v (k & Hk & ->). exists k. split; [lia|done].
Qed.

(** C4 (version monotonicity), as the code has it: a version is the reading
    of the clock at the write, so over any series of requests the versions
    returned by the successful publishes of one user increase strictly
    provided the clock reads strictly later at each later reading. *)
Theorem versions_increase_with_clock u rs w :
  (forall i j, (i < j)%nat -> clock env i < clock env j) ->
  StronglySorted Z.lt (published_versions u (run (serve_all env rs) w).1).
Proof. intros Hclock. by apply serve_all_versions. Qed.

(** *** The dispatcher *)

Lemma not_attempted_not_reported e evs :
  ~ In e (List.map endpoint (attempted evs)) -> reported_gone e evs = false.
Proof.
  induction evs as [|[u p b|sub p r] evs IH]; simpl; intros Hnot; [done|by apply IH|].
  rewrite IH by tauto.
  destruct (String.eqb_spec (endpoint sub) e); [tauto|done].
Qed.

Lemma reported_gone_unique evs sub q r :
  NoDup (List.map endpoint (attempted evs)) ->
  In (Send sub q r) evs ->
  reported_gone (endpoint sub) evs = gone r.
Proof.
  induction evs as [|[u p b|sub' p' r'] evs IH]; simpl; intros Hnd Hin; [done| |].
  - destruct Hin as [?|Hin]; [done|]. by apply IH.
  - apply NoDup_cons in Hnd as [Hfresh Hnd]. rewrite list_elem_of_In in Hfresh.
    destruct Hin as [Heq|Hin].
    + injection Heq as -> -> ->.
      rewrite String.eqb_refl, (not_attempted_not_reported _ _ Hfresh).
      by rewrite orb_false_r.
    + assert (Hne : endpoint sub' <> endpoint sub).
      { intros Heq. apply Hfresh. rewrite Heq.
        apply in_map, list_elem_of_In, (list_elem_of_omap _ evs sub).
        exists (Send sub q r). split; [by apply list_elem_of_In|done]. }
      destruct (String.eqb_spec (endpoint sub') (endpoint sub)); [done|].
      simpl. by apply IH.
Qed.

Lemma select_subscriptions_NoDup u w :
  NoDup (List.map endpoint (run (select_subscriptions u) w).1).
Proof.
  simpl. pose proof (NoDup_fst_map_to_list (push_subscriptions w)) as Hnd.
  induction (map_to_list (push_subscriptions w)) as [|kv l IH]; simpl; [constructor|].
  cbn in Hnd. apply NoDup_cons in Hnd as [Hfresh Hnd].
  destruct (String.eqb (sub_username kv.2) u); [|by apply IH].
  simpl. apply NoDup_cons. split; [|by apply IH].
  intros Hin. apply Hfresh. clear -Hin.
  induction l as [|kv' l IH]; simpl in *; [by apply elem_of_nil in Hin|].
  destruct (String.eqb (sub_username kv'.2) u); simpl in *.
  - apply elem_of_cons in Hin as [->|Hin]; [by left|right; by apply IH].
  - right. by apply IH.
Qed.


End Properties.

(** *** The properties on the example installation *)

(** C4 as stated fails when two writes read the same millisecond: a forced
    publish and the publish of a client that holds the version it returned
    both succeed and carry the same version. *)
Lemma versions_can_tie :
  published_versions "alice"
    (run (serve_all stalled_env
            [PostData "alice" forced_request; PostData "alice" current_request])
         example_world).1
    = [1000; 1000]
  /\ ~ StronglySorted Z.lt
        (published_versions "alice"
           (run (serve_all stalled_env
                   [PostData "alice" forced_request; PostData "alice" current_request])
                example_world).1).
Proof.
  assert (H : published_versions "alice"
    (run (serve_all stalled_env
            [PostData "alice" forced_request; PostData "alice" current_request])
         example_world).1
    = [1000; 1000]) by (vm_compute; reflexivity).
  split; [exact H|]. rewrite H. intros Hs.
  apply StronglySorted_inv in Hs as [_ Hall].
  apply Forall_inv in Hall. lia.
Qed.

Lemma versions_increase_with_clock_witness :
  StronglySorted Z.lt
    (published_versions "alice"
       (run (serve_all example_env
               [PostData "alice" forced_request; ScanTick; PostData "alice" stale_request;
                GetData "alice"; PostData "bob" forced_request;
                PostData "alice" unversioned_request])
            example_world).1).
Proof.
  apply (versions_increase_with_clock example_env "alice"
           [PostData "alice" forced_request; ScanTick; PostData "alice" stale_request;
            GetData "alice"; PostData "bob" forced_request;
            PostData "alice" unversioned_request] example_world).
  intros i j Hij. simpl. lia.
Defined.

Lemma publish_stale_conflict_witness :
  run (publish example_env "alice" stale_request) example_world
  = (Conflict (stored_version "alice" example_world), example_world).
Proof.
  apply (publish_stale_conflict example_env "alice" stale_request 4 example_world).
  - reflexivity.
  - reflexivity.
  - vm_compute. reflexivity.
Defined.

Lemma publish_force_overwrites_witness :
  (run (publish example_env "alice" forced_request) example_world).1 = Published 1000
  /\ data (run (publish example_env "alice" forced_request) example_world).2
     = <["alice" := {| json_data := Some (JArr []); version := 1000 |}]> (data example_world).
Proof.
  apply (publish_force_overwrites example_env "alice" forced_request example_world).
  reflexivity.
Defined.

Lemma publish_without_version_overwrites_witness :
  (run (publish example_env "alice" unversioned_request) example_world).1 = Published 1000
  /\ data (run (publish example_env "alice" unversioned_request) example_world).2
     = <["alice" := {| json_data := Some (JArr []); version := 1000 |}]> (data example_world).
Proof.
  apply (publish_without_version_overwrites example_env "alice" unversioned_request example_world).
  reflexivity.
Defined.

Lemma fetch_returns_stored_witness :
  run (fetch "bob") example_world = (Fetched (JArr []) 0, example_world)
  /\ run (fetch "alice") example_world = (Fetched (JArr [example_task]) 5, example_world).
Proof.
  split.
  - apply (proj1 (proj2 (fetch_returns_stored "bob" example_world))).
    vm_compute. reflexivity.
  - apply (proj2 (proj2 (fetch_returns_stored "alice" example_world))
             {| json_data := Some (JArr [example_task]); version := 5 |}).
    + vm_compute. reflexivity.
    + reflexivity.
Defined.


Lemma notified_never_redispatched_witness :
  calls (new_events (rescans example_env "alice" [1000; 1030; 1059] notified_task)
                    example_world) = []
  /\ run (rescans example_env "alice" [1000; 1030; 1059] notified_task) example_world
     = (notified_task, example_world).
Proof.
  destruct (notified_never_redispatched example_env "alice" notified_task 1000 1000
              [1000; 1030; 1059] example_world) as (H1 & H2 & _ & _).
  - vm_compute. reflexivity.
  - vm_compute. reflexivity.
  - lia.
  - lia.
  - split; [exact H1|exact H2].
Defined.

Lemma zero_stamps_read_as_absent_witness :
  calls (new_events (scan_task example_env "alice" 30000
                       (set example_task "remindAt" (JNum 0))) example_world) = [].
Proof.
  apply (proj1 (zero_stamps_read_as_absent example_env "alice" 30000)
           (set example_task "remindAt" (JNum 0)) example_world).
  vm_compute. reflexivity.
Defined.



(** The first scenario of the specification: alice holds version 5 and one
    task due at 1000; a scan at 1000 calls the dispatcher once and writes the
    task back notified at 1000 under a later version, and the next scan calls
    nothing. *)
Example scenario_scan :
  let w1 := (run (scanAndSendReminders example_env) example_world).2 in
  calls (trace w1) = [("alice", buildPushPayload example_task)]
  /\ data w1 !! "alice" = Some {| json_data := Some (JArr [notified_task]); version := 1001 |}
  /\ calls (new_events (scanAndSendReminders example_env) w1) = [].
Proof. vm_compute. repeat split. Qed.

(** ** Further properties of the sync core *)

Section Sync.

Variable env : Env.


Lemma fetch_run u w :
  run (fetch u) w =
    (Fetched (match data w !! u with
              | Some r => match json_data r with Some j => j | None => JNull end
              | None => JArr []
              end) (stored_version u w), w).
Proof. reflexivity. Qed.


(** What a successful publish stored is what the next read of the same user
    returns, under the version the publish returned ([null] when the body had
    no [data] field). *)
Theorem publish_then_fetch u req w v :
  (run (publish env u req) w).1 = Published v ->
  run (fetch u) (run (publish env u req) w).2 =
    (Fetched (match pb_data req with Some j => j | None => JNull end) v,
     (run (publish env u req) w).2).
Proof.
  intros Hres.
  destruct (negb (truthy (pb_force req))
            && lt (StringToNumber env) (ToPrimitive (pb_version req))
                  (PNumber (Some (stored_version u w)))) eqn:Hguard.
  - by rewrite (publish_rejects env u req w Hguard) in Hres.
  - destruct (publish_writes env u req w Hguard) as (Hres' & Hdata & _).
    rewrite Hres' in Hres. injection Hres as <-.
    rewrite fetch_run. unfold stored_version. by rewrite Hdata, lookup_insert_eq.
Qed.

(** A publish by one user, rejected or not, leaves what every other user
    reads, the subscriptions and the trace as they were. *)
Theorem publish_leaves_others u u' req w :
  u' <> u ->
  (run (fetch u') (run (publish env u req) w).2).1 = (run (fetch u') w).1
  /\ push_subscriptions (run (publish env u req) w).2 = push_subscriptions w
  /\ trace (run (publish env u req) w).2 = trace w.
Proof.
  intros Hne.
  destruct (negb (truthy (pb_force req))
            && lt (StringToNumber env) (ToPrimitive (pb_version req))
                  (PNumber (Some (stored_version u w)))) eqn:Hguard.
  - by rewrite (publish_rejects env u req w Hguard).
  - destruct (publish_writes env u req w Hguard) as (_ & Hdata & _).
    split.
    + rewrite !fetch_run. unfold stored_version.
      by rewrite Hdata, lookup_insert_ne by done.
    + unfold publish, stored_version, run, mbind, M_bind, select_data in *.
      by rewrite Hguard.
Qed.

End Sync.

(** ** Further properties of the dispatcher *)

Section Dispatcher.

Variable env : Env.

Lemma pruned_of_refl m : pruned_of m m.
Proof. intros e. by right. Qed.

Lemma pruned_of_trans m1 m2 m3 : pruned_of m1 m2 -> pruned_of m2 m3 -> pruned_of m1 m3.
Proof.
  intros H12 H23 e. destruct (H23 e) as [H|H]; [by left|].
  rewrite H. apply H12.
Qed.


(** The rows [SELECT ... WHERE username = ?] returns are those of the user. *)
Lemma select_subscriptions_In u w sub :
  In sub (run (select_subscriptions u) w).1 <->
  exists row, push_subscriptions w !! endpoint sub = Some row
              /\ sub_username row = u
              /\ p256dh sub = sub_p256dh row /\ auth sub = sub_auth row.
Proof.
  simpl. rewrite in_map_iff. split.
  - intros ([e row] & <- & Hin). apply filter_In in Hin as [Hin Hu].
    apply list_elem_of_In, elem_of_map_to_list in Hin. apply String.eqb_eq in Hu.
    exists row. done.
  - intros (row & Hrow & Hu & Hp & Ha). exists (endpoint sub, row). split.
    + destruct sub. simpl in *. by rewrite Hp, Ha.
    + apply filter_In. split.
      * by apply list_elem_of_In, elem_of_map_to_list.
      * by apply String.eqb_eq.
Qed.

Lemma select_subscriptions_nil u w :
  (run (select_subscriptions u) w).1 = [] <-> no_subscription u (push_subscriptions w).
Proof.
  split.
  - intros Hnil e row Hrow Hu.
    assert (Hin : In {| endpoint := e; p256dh := sub_p256dh row; auth := sub_auth row |}
                     (run (select_subscriptions u) w).1).
    { apply select_subscriptions_In. by exists row. }
    by rewrite Hnil in Hin.
  - intros Hno. destruct (run (select_subscriptions u) w).1 as [|sub subs] eqn:Hsubs; [done|].
    assert (Hin : In sub (run (select_subscriptions u) w).1) by (rewrite Hsubs; by left).
    apply select_subscriptions_In in Hin as (row & Hrow & Hu & _).
    by destruct (Hno _ _ Hrow).
Qed.

Lemma reported_gone_attempted e evs :
  reported_gone e evs = true -> In e (List.map endpoint (attempted evs)).
Proof.
  induction evs as [|[u p b|sub p r] evs IH]; simpl; [done|done|].
  intros H. apply orb_true_iff in H as [H|H]; [|right; by apply IH].
  apply andb_true_iff in H as [H _]. left. by apply String.eqb_eq.
Qed.

(** What a call of the dispatcher leaves of the registry, delivery by
    delivery. *)
Lemma sendPushToUser_registry u p w :
  let w' := (run (sendPushToUser env u p) w).2 in
  let evs := new_events (sendPushToUser env u p) w in
  (forall sub, In sub (attempted evs) -> In sub (run (select_subscriptions u) w).1)
  /\ (forall sub q r, In (Send sub q r) evs ->
        push_subscriptions w' !! endpoint sub =
          if gone r then None else push_subscriptions w !! endpoint sub)
  /\ (forall e, ~ In e (List.map endpoint (attempted evs)) ->
        push_subscriptions w' !! e = push_subscriptions w !! e).
Proof.
  destruct (sendPushToUser_run env u p w) as (evs & Hext & _ & Hatt & _ & Hl).
  cbn zeta. rewrite (new_events_extends _ _ _ Hext).
  rewrite attempted_app. cbn [attempted omap list_omap]. rewrite app_nil_r.
  assert (Hnd : NoDup (List.map endpoint (attempted evs))).
  { rewrite Hatt. destruct (isPushConfigured env); [|constructor].
    apply select_subscriptions_NoDup. }
  split; [|split].
  - intros sub. rewrite Hatt. by destruct (isPushConfigured env).
  - intros sub q r Hin. apply in_app_or in Hin as [Hin|[?|[]]]; [|done].
    by rewrite Hl, (reported_gone_unique evs sub q r Hnd Hin).
  - intros e Hnot. by rewrite Hl, (not_attempted_not_reported e evs Hnot).
Qed.

Lemma sendPushToUser_pruned u p w :
  pruned_of (push_subscriptions w) (push_subscriptions (run (sendPushToUser env u p) w).2).
Proof.
  destruct (sendPushToUser_run env u p w) as (evs & _ & _ & _ & _ & Hl).
  intros e. rewrite Hl. destruct (reported_gone e evs); [by left|by right].
Qed.

(** The dispatcher returns [true] exactly when push is configured and the user
    owns a subscription; when it returns [false] it has attempted no delivery
    and left the registry and the task store as they were. *)
Theorem dispatch_result u p w :
  ((run (sendPushToUser env u p) w).1 = true <->
   isPushConfigured env = true
   /\ exists e row, push_subscriptions w !! e = Some row /\ sub_username row = u)
  /\ ((run (sendPushToUser env u p) w).1 = false ->
      attempted (new_events (sendPushToUser env u p) w) = []
      /\ push_subscriptions (run (sendPushToUser env u p) w).2 = push_subscriptions w
      /\ data (run (sendPushToUser env u p) w).2 = data w).
Proof.
  destruct (sendPushToUser_run env u p w) as (evs & Hext & _ & Hatt & Hres & Hl).
  assert (Hsubs : (length (run (select_subscriptions u) w).1 =? 0)%nat = false <->
                  exists e row, push_subscriptions w !! e = Some row /\ sub_username row = u).
  { rewrite Nat.eqb_neq. split.
    - intros Hlen. destruct (run (select_subscriptions u) w).1 as [|sub subs] eqn:Hs; [done|].
      assert (Hin : In sub (run (select_subscriptions u) w).1) by (rewrite Hs; by left).
      apply select_subscriptions_In in Hin as (row & Hrow & Hu & _). eauto.
    - intros (e & row & Hrow & Hu) Hlen. apply nil_length_inv in Hlen.
      apply select_subscriptions_nil in Hlen. by destruct (Hlen e row Hrow). }
  split.
  - rewrite Hres, andb_true_iff, negb_true_iff, Hsubs. done.
  - intros Hfalse. rewrite (new_events_extends _ _ _ Hext).
    rewrite attempted_app. cbn [attempted omap list_omap]. rewrite app_nil_r.
    assert (Hnone : attempted evs = []).
    { rewrite Hatt. rewrite Hres in Hfalse.
      destruct (isPushConfigured env); [|done]. simpl in Hfalse.
      apply negb_false_iff, Nat.eqb_eq, nil_length_inv in Hfalse. done. }
    split; [done|]. split; [|apply Hext].
    apply map_eq. intros e. rewrite Hl, not_attempted_not_reported; [done|].
    rewrite Hnone. simpl. tauto.
Qed.

(** A call of the dispatcher for one user only ever removes rows: it adds
    none, changes none, and removes none that belongs to another user. *)
Theorem dispatch_only_prunes u p w e row :
  (push_subscriptions (run (sendPushToUser env u p) w).2 !! e = Some row ->
   push_subscriptions w !! e = Some row)
  /\ (push_subscriptions w !! e = Some row -> sub_username row <> u ->
      push_subscriptions (run (sendPushToUser env u p) w).2 !! e = Some row).
Proof.
  destruct (sendPushToUser_run env u p w) as (evs & _ & _ & Hatt & _ & Hl).
  rewrite Hl. split.
  - by destruct (reported_gone e evs).
  - intros Hrow Hu. destruct (reported_gone e evs) eqn:Hgone; [|done].
    apply reported_gone_attempted in Hgone. rewrite Hatt in Hgone.
    destruct (isPushConfigured env); [|done].
    apply in_map_iff in Hgone as (sub & <- & Hin).
    apply select_subscriptions_In in Hin as (row' & Hrow' & Hu' & _). congruence.
Qed.


End Dispatcher.

(** ** Further properties of the reminder scanner *)

Section Scanner.

Variable env : Env.

Lemma scan_task_pruned u now task w :
  pruned_of (push_subscriptions w)
            (push_subscriptions (run (scan_task env u now task) w).2).
Proof.
  unfold scan_task. destruct (due env now task); [|apply pruned_of_refl].
  rewrite run_bind.
  pose proof (sendPushToUser_pruned env u (buildPushPayload task) w) as H.
  by destruct (run (sendPushToUser env u (buildPushPayload task)) w).1.
Qed.

Lemma scan_tasks_pruned u now tasks : forall w,
  pruned_of (push_subscriptions w)
            (push_subscriptions (run (scan_tasks env u now tasks) w).2).
Proof.
  induction tasks as [|task tasks IH]; intros w; cbn [scan_tasks].
  - apply pruned_of_refl.
  - rewrite !run_bind, run_ret. cbn [snd].
    eapply pruned_of_trans; [apply scan_task_pruned|apply IH].
Qed.

Lemma scan_row_pruned now row w :
  pruned_of (push_subscriptions w)
            (push_subscriptions (run (scan_row env now row) w).2).
Proof.
  unfold scan_row.
  destruct (match row.2 with Some j => j | None => JArr [] end)
    as [| | | |[|t ts]|]; try apply pruned_of_refl.
  rewrite run_bind.
  pose proof (scan_tasks_pruned row.1 now (t :: ts) w) as H.
  destruct (run (scan_tasks env row.1 now (t :: ts)) w).1.2; [|done].
  rewrite run_bind. unfold run, Date_now, replace_data in *. done.
Qed.

Lemma scan_rows_pruned now rows : forall w,
  pruned_of (push_subscriptions w)
            (push_subscriptions (run (for_each (scan_row env now) rows) w).2).
Proof.
  induction rows as [|row rows IH]; intros w; cbn [for_each].
  - apply pruned_of_refl.
  - rewrite run_bind. eapply pruned_of_trans; [apply scan_row_pruned|apply IH].
Qed.

Lemma scan_pruned w :
  pruned_of (push_subscriptions w)
            (push_subscriptions (run (scanAndSendReminders env) w).2).
Proof.
  destruct (isPushConfigured env) eqn:Hcfg.
  - rewrite (scan_run env w Hcfg).
    exact (scan_rows_pruned _ _
             {| data := data w; push_subscriptions := push_subscriptions w;
                ticks := S (ticks w); trace := trace w |}).
  - unfold scanAndSendReminders. rewrite Hcfg. apply pruned_of_refl.
Qed.

(** A scan never adds a subscription nor changes one: every row the registry
    holds after it was there before it, the same. *)
Theorem scan_only_prunes w e row :
  push_subscriptions (run (scanAndSendReminders env) w).2 !! e = Some row ->
  push_subscriptions w !! e = Some row.
Proof. intros H. destruct (scan_pruned w e) as [H'|H']; congruence. Qed.

(** A scan creates no collection and deletes none: the users the task store
    holds a row for are the same before and after. *)
Theorem scan_keeps_users w u :
  is_Some (data (run (scanAndSendReminders env) w).2 !! u) <-> is_Some (data w !! u).
Proof.
  destruct (isPushConfigured env) eqn:Hcfg.
  - rewrite (scan_run env w Hcfg).
    set (rows := List.map _ _).
    destruct (scan_rows_run env (clock env (ticks w)) rows) with
      (w := {| data := data w; push_subscriptions := push_subscriptions w;
               ticks := S (ticks w); trace := trace w |}) as (evs & _ & _ & Hout & Hin).
    { unfold rows. rewrite rows_usernames. apply NoDup_fst_map_to_list. }
    destruct (data w !! u) as [r|] eqn:Hrow.
    + destruct (Hin u (json_data r)) as (flags & k & _ & _ & _ & _ & _ & Hd).
      { by apply rows_stored. }
      rewrite Hd. simpl. rewrite Hrow. by destruct (existsb id flags).
    + destruct (Hout u) as (Hd & _).
      { unfold rows. rewrite rows_usernames. intros Hmem.
        apply list_elem_of_fmap in Hmem as ([u' r] & -> & Hmem).
        apply elem_of_map_to_list in Hmem. simpl in Hrow. congruence. }
      rewrite Hd. simpl. by rewrite Hrow.
  - unfold scanAndSendReminders. by rewrite Hcfg.
Qed.









(** At most once: a task with a numeric [remindAt] that a scan at a non-zero
    time dispatched with success carries the mark of that scan, and as long
    as it is stored as the scan left it no later pass dispatches it, at any
    time. *)
Theorem dispatched_at_most_once u now task r :
  due env now task = true ->
  get task "remindAt" = Some (JNum r) ->
  now <> 0 ->
  forall now' w,
    run (scan_task env u now' (mark now task true)) w = (mark now task true, false, w).
Proof.
  intros Hdue Hr Hnow now' w. apply scan_task_skips.
  pose proof (due_remindAt env now task Hdue) as Htruthy.
  assert (Hle : r <= now).
  { unfold due in Hdue. destruct (excluded task); [done|].
    destruct (negb (truthy (get task "remindAt"))); [done|].
    destruct (already_notified env task); [done|].
    rewrite (outside_window_number env now task r Hr) in Hdue.
    destruct (Z.leb_spec r now); [done|]. by simpl in Hdue. }
  unfold due.
  rewrite (already_notified_number env (mark now task true) r now).
  - destruct (excluded _); [done|]. destruct (negb _); [done|].
    destruct (Z.eqb_spec now 0); [done|]. by destruct (Z.leb_spec r now); [|lia].
  - by rewrite (mark_due_get now task "remindAt" Htruthy).
  - by rewrite (mark_due_get now task "notifiedAt" Htruthy).
Qed.


End Scanner.

(** ** The push subscription handlers *)

Section PushApi.

Variable env : Env.
Variable b : Binding.

Lemma push_subscribe_run u sub w :
  isPushConfigured env = true ->
  invalid_subscription sub = false ->
  exists e row,
    field sub "endpoint" = Some e
    /\ sub_username row = u
    /\ (forall k, field (field sub "keys") "p256dh" = Some (JStr k) -> sub_p256dh row = k)
    /\ (forall a, field (field sub "keys") "auth" = Some (JStr a) -> sub_auth row = a)
    /\ sub_created_at row = clock env (ticks w)
    /\ run (push_subscribe env b u sub) w =
         (PushOk, {| data := data w;
                     push_subscriptions := <[column_text b e := row]> (push_subscriptions w);
                     ticks := S (ticks w); trace := trace w |}).
Proof.
  intros Hcfg Hvalid. unfold push_subscribe. rewrite Hcfg, Hvalid. cbn [negb].
  unfold invalid_subscription in Hvalid.
  destruct (field sub "endpoint") as [e|] eqn:He.
  2:{ simpl in Hvalid. by rewrite orb_true_r in Hvalid. }
  eexists e, _. split; [done|].
  split; [|split; [|split; [|split; [|reflexivity]]]]; simpl; try done.
  - by intros k ->.
  - by intros a ->.
Qed.

(** A subscription is stored only when push is configured and the endpoint and
    both keys are present: otherwise the request is refused and the state is
    as it was. *)
Theorem subscribe_refusal u sub w :
  ((run (push_subscribe env b u sub) w).1 = PushOk <->
   isPushConfigured env = true /\ invalid_subscription sub = false)
  /\ ((run (push_subscribe env b u sub) w).1 <> PushOk ->
      (run (push_subscribe env b u sub) w).2 = w).
Proof.
  destruct (isPushConfigured env) eqn:Hcfg.
  - destruct (invalid_subscription sub) eqn:Hinv.
    + unfold push_subscribe. rewrite Hcfg, Hinv. simpl.
      split; [|done]. split; [done|]. by intros [_ ?].
    + destruct (push_subscribe_run u sub w Hcfg Hinv) as (e & row & _ & _ & _ & _ & _ & Hrun).
      rewrite Hrun. simpl. split; [done|]. by intros H.
  - unfold push_subscribe. rewrite Hcfg. simpl.
    split; [|done]. split; [done|]. by intros [? _].
Qed.

(** A subscription with string fields, once accepted, is the row of its
    endpoint, owned by the subscriber; every other endpoint keeps its row; and
    the next call of the dispatcher for the subscriber delivers to it and
    returns [true]. *)
Theorem subscribe_then_dispatch u sub e k a p w :
  isPushConfigured env = true ->
  invalid_subscription sub = false ->
  field sub "endpoint" = Some (JStr e) ->
  field (field sub "keys") "p256dh" = Some (JStr k) ->
  field (field sub "keys") "auth" = Some (JStr a) ->
  let w' := (run (push_subscribe env b u sub) w).2 in
  (exists row, push_subscriptions w' !! e = Some row
               /\ sub_username row = u /\ sub_p256dh row = k /\ sub_auth row = a
               /\ sub_created_at row = clock env (ticks w))
  /\ (forall e', e' <> e -> push_subscriptions w' !! e' = push_subscriptions w !! e')
  /\ In {| endpoint := e; p256dh := k; auth := a |}
        (attempted (new_events (sendPushToUser env u p) w'))
  /\ (run (sendPushToUser env u p) w').1 = true.
Proof.
  intros Hcfg Hvalid He Hk Ha. cbn zeta.
  destruct (push_subscribe_run u sub w Hcfg Hvalid)
    as (e0 & row & He0 & Hu & Hp & Hau & Hc & Hrun).
  rewrite He in He0. injection He0 as <-.
  rewrite Hrun. cbn [snd]. set (w' := Build_World _ _ _ _).
  assert (Hrow : push_subscriptions w' !! e = Some row) by apply lookup_insert_eq.
  split; [exists row; rewrite (Hp k Hk), (Hau a Ha); done|].
  split; [intros e' Hne; simpl; by rewrite lookup_insert_ne|].
  destruct (sendPushToUser_run env u p w') as (evs & Hext & _ & Hatt & Hres & _).
  assert (Hin : In {| endpoint := e; p256dh := k; auth := a |}
                   (run (select_subscriptions u) w').1).
  { apply select_subscriptions_In. exists row. simpl.
    rewrite (Hp k Hk), (Hau a Ha). done. }
  split.
  - rewrite (new_events_extends _ _ _ Hext), attempted_app, Hatt, Hcfg.
    apply in_or_app. by left.
  - rewrite Hres, Hcfg. cbn [andb].
    by destruct (run (select_subscriptions u) w').1.
Qed.

(** An endpoint has one owner: when a user subscribes an endpoint that another
    user held, the calls of the dispatcher for that other user no longer
    deliver to it. *)
Theorem subscribe_takes_over u sub e u1 p w sub1 :
  isPushConfigured env = true ->
  invalid_subscription sub = false ->
  field sub "endpoint" = Some (JStr e) ->
  u1 <> u ->
  In sub1 (attempted (new_events (sendPushToUser env u1 p)
                        (run (push_subscribe env b u sub) w).2)) ->
  endpoint sub1 <> e.
Proof.
  intros Hcfg Hvalid He Hne Hin Heq.
  destruct (push_subscribe_run u sub w Hcfg Hvalid)
    as (e0 & row & He0 & Hu & _ & _ & _ & Hrun).
  rewrite He in He0. injection He0 as <-.
  rewrite Hrun in Hin. cbn [snd] in Hin.
  apply (proj1 (sendPushToUser_registry env u1 p _)) in Hin.
  apply select_subscriptions_In in Hin as (row' & Hrow' & Hu' & _).
  simpl in Hrow'. rewrite Heq, lookup_insert_eq in Hrow'. congruence.
Qed.

(** Unsubscribing an endpoint removes its row when the caller owns it and
    nothing else; when the row belongs to someone else, or there is none, the
    registry is left as it is. *)
Theorem unsubscribe_own_only u e w :
  e <> "" ->
  let w' := (run (push_unsubscribe b u (Some (JStr e))) w).2 in
  (run (push_unsubscribe b u (Some (JStr e))) w).1 = PushOk
  /\ data w' = data w
  /\ (forall row, push_subscriptions w !! e = Some row -> sub_username row = u ->
        push_subscriptions w' = delete e (push_subscriptions w))
  /\ (forall row, push_subscriptions w !! e = Some row -> sub_username row <> u ->
        push_subscriptions w' = push_subscriptions w)
  /\ (push_subscriptions w !! e = None -> push_subscriptions w' = push_subscriptions w).
Proof.
  intros He. unfold push_unsubscribe. simpl.
  destruct (String.eqb_spec e ""); [done|]. simpl.
  split; [done|]. split; [done|]. split; [|split].
  - intros row -> <-. by rewrite String.eqb_refl.
  - intros row -> Hne. by destruct (String.eqb_spec (sub_username row) u).
  - by intros ->.
Qed.

(** Unsubscribing without an endpoint removes every subscription of the
    caller and no other: afterwards the caller owns none, every row of
    another user is as it was, and the dispatcher returns [false] for the
    caller without attempting a delivery. *)
Theorem unsubscribe_all u e p w :
  truthy e = false ->
  let w' := (run (push_unsubscribe b u e) w).2 in
  no_subscription u (push_subscriptions w')
  /\ (forall e' row, push_subscriptions w !! e' = Some row -> sub_username row <> u ->
        push_subscriptions w' !! e' = Some row)
  /\ (forall e' row, push_subscriptions w' !! e' = Some row ->
        push_subscriptions w !! e' = Some row)
  /\ data w' = data w
  /\ (run (sendPushToUser env u p) w').1 = false.
Proof.
  intros He. cbn zeta.
  assert (Hrun : (run (push_unsubscribe b u e) w).2 =
                 {| data := data w;
                    push_subscriptions :=
                      filter (fun kv : string * SubRow => sub_username kv.2 <> u)
                             (push_subscriptions w);
                    ticks := ticks w; trace := trace w |}).
  { unfold push_unsubscribe. destruct e as [v|]; [|done]. by rewrite He. }
  rewrite Hrun. set (w' := Build_World _ _ _ _).
  assert (Hno : no_subscription u (push_subscriptions w')).
  { intros e' row Hrow. simpl in Hrow. by apply map_lookup_filter_Some in Hrow as [_ ?]. }
  split; [done|]. split; [|split; [|split; [done|]]].
  - intros e' row Hrow Hne. simpl. by apply map_lookup_filter_Some.
  - intros e' row Hrow. simpl in Hrow. by apply map_lookup_filter_Some in Hrow as [? _].
  - destruct (sendPushToUser_run env u p w') as (evs & _ & _ & _ & Hres & _).
    rewrite Hres. apply select_subscriptions_nil in Hno. rewrite Hno.
    apply andb_false_r.
Qed.

(** The test notification is refused with 500 when push is not configured,
    answered 404 when the caller owns no subscription, and sent otherwise; in
    no case does it touch the task store. *)
Theorem push_test_answers u w :
  (isPushConfigured env = false ->
   run (push_test env u) w = (PushError 500 "Push not configured", w))
  /\ (isPushConfigured env = true -> no_subscription u (push_subscriptions w) ->
      (run (push_test env u) w).1 = PushError 404 "No subscription")
  /\ (isPushConfigured env = true ->
      (exists e row, push_subscriptions w !! e = Some row /\ sub_username row = u) ->
      (run (push_test env u) w).1 = PushOk)
  /\ data (run (push_test env u) w).2 = data w.
Proof.
  unfold push_test. destruct (isPushConfigured env) eqn:Hcfg; cbn [negb].
  2:{ split; [done|]. split; [done|]. split; done. }
  rewrite !run_bind. cbn [Date_now run fst snd].
  set (w1 := Build_World _ _ _ _).
  set (p := Build_Payload _ _ _ _).
  destruct (sendPushToUser_run env u p w1) as (evs & Hext & _ & _ & Hres & _).
  fold (run (sendPushToUser env u p) w1) in *.
  split; [done|]. split; [|split].
  - intros _ Hno.
    assert (Hsent : (run (sendPushToUser env u p) w1).1 = false).
    { rewrite Hres. apply (select_subscriptions_nil u w1) in Hno.
      rewrite Hno. apply andb_false_r. }
    by rewrite Hsent.
  - intros _ (e & row & Hrow & Hu).
    assert (Hsent : (run (sendPushToUser env u p) w1).1 = true).
    { rewrite Hres, Hcfg. cbn [andb].
      destruct (run (select_subscriptions u) w1).1 eqn:Hs; [|done].
      apply (select_subscriptions_nil u w1) in Hs. by destruct (Hs e row Hrow). }
    by rewrite Hsent.
  - destruct (run (sendPushToUser env u p) w1).1; apply Hext.
Qed.

End PushApi.

(** ** Signing keys at start-up *)

Lemma generated_keys_configured generated k :
  generated.1 <> "" -> generated.2 <> "" ->
  keys_configured (generated_keys generated k) = true.
Proof.
  intros H1 H2. unfold keys_configured, generated_keys. simpl.
  destruct (String.eqb_spec generated.1 ""); [done|].
  by destruct (String.eqb_spec generated.2 "").
Qed.

Lemma saved_lookup k table :
  saveVapidToDb k table !! "vapid_public_key" = Some (public_key k)
  /\ saveVapidToDb k table !! "vapid_private_key" = Some (private_key k)
  /\ saveVapidToDb k table !! "vapid_subject" = Some (subject k).
Proof.
  unfold saveVapidToDb. repeat split.
  - by rewrite !lookup_insert_ne, lookup_insert_eq by done.
  - by rewrite lookup_insert_ne, lookup_insert_eq by done.
  - by rewrite lookup_insert_eq.
Qed.

Lemma initial_subject pe : subject (initial_keys pe) <> "".
Proof.
  unfold initial_keys. simpl. destruct (env_VAPID_SUBJECT pe) as [sj|]; simpl; [|done].
  by destruct (String.eqb_spec sj "").
Qed.

Lemma generated_subject generated k : subject (generated_keys generated k) <> "".
Proof.
  unfold generated_keys. cbn [subject present].
  by destruct (String.eqb_spec (subject k) "").
Qed.

(** When the environment sets the subject, neither the stored subject nor the
    default replaces it. *)
Lemma initial_subject_kept pe generated table :
  present (env_VAPID_SUBJECT pe) = true ->
  subject (initial_keys pe)
  = subject (generated_keys generated (load_keys pe table (initial_keys pe))).
Proof.
  intros Hpe. unfold generated_keys, load_keys. cbn [subject present].
  rewrite Hpe. cbn [negb andb].
  by destruct (String.eqb_spec (subject (initial_keys pe)) ""); [destruct (initial_subject pe)|].
Qed.

(** Loading from a table a pair was saved to gives back what was saved. *)
Lemma load_saved pe k0 fresh table :
  public_key k0 = "" ->
  private_key k0 = "" ->
  public_key fresh <> "" ->
  private_key fresh <> "" ->
  subject fresh <> "" ->
  (present (env_VAPID_SUBJECT pe) = true -> subject k0 = subject fresh) ->
  load_keys pe (saveVapidToDb fresh table) k0 = fresh.
Proof.
  intros Hpub Hpriv Hfp Hfs Hfj Hsame.
  destruct (saved_lookup fresh table) as (Hp & Hs & Hj).
  unfold load_keys. rewrite Hp, Hs, Hj, Hpub, Hpriv.
  destruct fresh as [fp fs fj]. cbn [public_key private_key subject present or_default] in *.
  destruct (String.eqb_spec fp ""); [done|].
  destruct (String.eqb_spec fs ""); [done|].
  destruct (String.eqb_spec fj ""); [done|].
  cbn [negb andb String.eqb]. f_equal.
  destruct (present (env_VAPID_SUBJECT pe)); cbn [negb andb]; [by apply Hsame|done].
Qed.

(** The three ways start-up ends. *)
Lemma start_cases pe generated table :
  let k0 := initial_keys pe in
  let loaded := load_keys pe table k0 in
  let fresh := generated_keys generated loaded in
  (keys_configured k0 = true
   /\ start pe generated table = {| keys := k0; settings := table; details_set := [k0] |})
  \/ (keys_configured k0 = false /\ keys_configured loaded = true
      /\ start pe generated table =
           {| keys := loaded; settings := table; details_set := [loaded] |})
  \/ (keys_configured k0 = false /\ keys_configured loaded = false
      /\ start pe generated table =
           {| keys := fresh; settings := saveVapidToDb fresh table;
              details_set := if keys_configured fresh then [fresh] else [] |}).
Proof.
  cbn zeta. unfold start, ensureVapidKeys. cbn [keys settings details_set].
  destruct (keys_configured (initial_keys pe)) eqn:H0; [by left|right].
  destruct (keys_configured (load_keys pe table (initial_keys pe))) eqn:H1;
    cbn [negb app]; [by left|by right].
Qed.

(** Provided the generator returns two non-empty keys, start-up always ends
    with push configured and hands the final keys to [setVapidDetails] once.
    The table is written only when a pair was generated, and then holds that
    pair. *)
Theorem start_configured pe generated table :
  generated.1 <> "" ->
  generated.2 <> "" ->
  let b := start pe generated table in
  keys_configured (keys b) = true
  /\ details_set b = [keys b]
  /\ (settings b = table
      \/ (public_key (keys b) = generated.1 /\ private_key (keys b) = generated.2
          /\ settings b = saveVapidToDb (keys b) table)).
Proof.
  intros Hg1 Hg2. cbn zeta.
  destruct (start_cases pe generated table) as [[H0 ->]|[(H0 & H1 & ->)|(H0 & H1 & ->)]];
    cbn [keys settings details_set].
  - split; [done|]. split; [done|]. by left.
  - split; [done|]. split; [done|]. by left.
  - rewrite (generated_keys_configured _ _ Hg1 Hg2).
    split; [done|]. split; [done|]. by right.
Qed.

(** Keys survive a restart: when the environment sets both keys or neither,
    the process started again on the table the first start left ends with the
    same keys and subject and leaves the table as it is, whatever the
    generator would return the second time. *)
Theorem restart_reuses_keys pe generated generated' table :
  present (env_VAPID_PUBLIC_KEY pe) = present (env_VAPID_PRIVATE_KEY pe) ->
  generated.1 <> "" ->
  generated.2 <> "" ->
  let first := start pe generated table in
  let second := start pe generated' (settings first) in
  keys second = keys first /\ settings second = settings first.
Proof.
  intros Henv Hg1 Hg2. cbn zeta.
  destruct (start_cases pe generated table) as [[H0 ->]|[(H0 & H1 & ->)|(H0 & H1 & ->)]];
    cbn [keys settings details_set].
  - destruct (start_cases pe generated' table) as [[_ ->]|[(H & _)|(H & _)]];
      [done|congruence|congruence].
  - destruct (start_cases pe generated' table) as [[H _]|[(_ & _ & ->)|(_ & H & _)]];
      [congruence|done|congruence].
  - assert (Hempty : public_key (initial_keys pe) = "" /\ private_key (initial_keys pe) = "").
    { clear -H0 Henv. unfold keys_configured, initial_keys in *. simpl in *.
      destruct (env_VAPID_PUBLIC_KEY pe) as [pk|], (env_VAPID_PRIVATE_KEY pe) as [sk|];
        simpl in *.
      - destruct (String.eqb pk "") eqn:Epk, (String.eqb sk "") eqn:Esk;
          simpl in *; rewrite ?Epk, ?Esk in *; done.
      - destruct (String.eqb pk "") eqn:Epk; simpl in *; done.
      - destruct (String.eqb sk "") eqn:Esk; simpl in *; done.
      - done. }
    destruct Hempty as [Hpub Hpriv].
    assert (Hload : load_keys pe
                      (saveVapidToDb (generated_keys generated
                                        (load_keys pe table (initial_keys pe))) table)
                      (initial_keys pe)
                    = generated_keys generated (load_keys pe table (initial_keys pe))).
    { apply load_saved; [done|done|done|done|apply generated_subject|].
      apply initial_subject_kept. }
    destruct (start_cases pe generated'
                (saveVapidToDb (generated_keys generated
                                  (load_keys pe table (initial_keys pe))) table))
      as [[H _]|[(_ & _ & ->)|(_ & H & _)]]; [congruence| |].
    + by rewrite Hload.
    + rewrite Hload, (generated_keys_configured _ _ Hg1 Hg2) in H. done.
Qed.

(** A key set alone in the environment does not survive: with only the public
    key set and no private key stored, the first start replaces it by the
    generated pair, and the next start pairs the key of the environment with
    the stored private key of that generated pair. *)
Theorem lone_key_mismatch pe pk generated generated' table :
  env_VAPID_PUBLIC_KEY pe = Some pk ->
  pk <> "" ->
  present (env_VAPID_PRIVATE_KEY pe) = false ->
  present (table !! "vapid_private_key") = false ->
  generated.1 <> "" ->
  generated.2 <> "" ->
  let first := start pe generated table in
  let second := start pe generated' (settings first) in
  public_key (keys first) = generated.1
  /\ private_key (keys first) = generated.2
  /\ public_key (keys second) = pk
  /\ private_key (keys second) = generated.2.
Proof.
  intros Hpk Hne Hsk Hstored Hg1 Hg2. cbn zeta.
  assert (Hinit : public_key (initial_keys pe) = pk /\ private_key (initial_keys pe) = "").
  { unfold initial_keys. simpl. rewrite Hpk. simpl.
    destruct (String.eqb_spec pk ""); [done|]. split; [done|].
    destruct (env_VAPID_PRIVATE_KEY pe) as [sk|]; simpl in *; [|done].
    by destruct (String.eqb sk ""). }
  destruct Hinit as [Hpub Hpriv].
  assert (H0 : keys_configured (initial_keys pe) = false).
  { unfold keys_configured. rewrite Hpriv. apply andb_false_r. }
  assert (Hpresent : present (Some pk) = true).
  { simpl. by destruct (String.eqb_spec pk ""). }
  assert (H1 : keys_configured (load_keys pe table (initial_keys pe)) = false).
  { unfold keys_configured, load_keys. cbn [public_key private_key].
    rewrite Hpriv, Hstored. cbn [present String.eqb negb andb]. apply andb_false_r. }
  destruct (start_cases pe generated table) as [[H _]|[(_ & H & _)|(_ & _ & ->)]];
    [congruence|congruence|].
  cbn [keys settings]. split; [done|]. split; [done|].
  set (fresh := generated_keys generated _).
  destruct (saved_lookup fresh table) as (Hp & Hs & Hj).
  assert (Hload : public_key (load_keys pe (saveVapidToDb fresh table) (initial_keys pe)) = pk
                  /\ private_key (load_keys pe (saveVapidToDb fresh table) (initial_keys pe))
                     = generated.2).
  { unfold load_keys. cbn [public_key private_key].
    rewrite Hpub, Hpriv, Hs, Hpresent. cbn [present String.eqb negb andb or_default].
    split; [done|]. unfold fresh. cbn [generated_keys private_key].
    by destruct (String.eqb_spec generated.2 ""). }
  destruct Hload as [Hl1 Hl2].
  assert (H2 : keys_configured (load_keys pe (saveVapidToDb fresh table) (initial_keys pe))
               = true).
  { unfold keys_configured. rewrite Hl1, Hl2.
    destruct (String.eqb_spec pk ""); [done|].
    by destruct (String.eqb_spec generated.2 ""). }
  destruct (start_cases pe generated' (saveVapidToDb fresh table))
    as [[H _]|[(_ & _ & ->)|(_ & H & _)]]; [congruence| |congruence].
  done.
Qed.

(** ** The scan timer *)

Lemma timer_step_invariant env t e :
  in_flight t = (if pushScanRunning t then 1 else 0)%nat ->
  in_flight (timer_step env t e) = (if pushScanRunning (timer_step env t e) then 1 else 0)%nat.
Proof.
  intros H. destruct e; simpl.
  - destruct (negb (isPushConfigured env) || pushScanRunning t) eqn:Hg; [done|].
    simpl. apply orb_false_iff in Hg as [_ Hr]. by rewrite Hr in H; rewrite H.
  - destruct (in_flight t) as [|n] eqn:Hn; [by rewrite Hn|].
    simpl. destruct (pushScanRunning t); [congruence|done].
Qed.

(** Single flight: whatever the order in which the interval fires and scans
    settle, at most one scan is in flight, and the flag is raised exactly
    while one is. *)
Theorem scans_single_flight env es :
  let t := timer_run env {| pushScanRunning := false; in_flight := 0 |} es in
  (in_flight t <= 1)%nat /\ (pushScanRunning t = true <-> in_flight t = 1%nat).
Proof.
  cbn zeta.
  assert (H : forall t, in_flight t = (if pushScanRunning t then 1 else 0)%nat ->
              in_flight (timer_run env t es)
              = (if pushScanRunning (timer_run env t es) then 1 else 0)%nat).
  { unfold timer_run. induction es as [|e es IH]; intros t Ht; simpl; [done|].
    apply IH. by apply timer_step_invariant. }
  specialize (H {| pushScanRunning := false; in_flight := 0 |} eq_refl).
  rewrite H. destruct (pushScanRunning _); split; try lia; done.
Qed.

(** ** The holiday calendar cache *)

(** What a request can change: a file differs afterwards only if it is the
    file named by the four digits of the year asked for, the answer is the
    text the source sent with status 200, [JSON.parse] accepted it, and the
    file now holds it; and the source is asked only for a year of four digits
    that is not in the directory yet. *)
Theorem holidays_effects henv raw h :
  let year := trim henv raw in
  let res := holidays henv raw h in
  (forall name, files res.2 !! name <> files h !! name ->
     is_year year = true /\ name = (year ++ ".json")%string
     /\ exists content,
          res.1 = HolidayData content /\ files res.2 !! name = Some content
          /\ JSON_valid henv content = true
          /\ https_get henv (requests h) (holiday_url henv year) = Reply 200 content)
  /\ (requests res.2 <> requests h ->
      is_year year = true /\ files h !! (year ++ ".json")%string = None
      /\ requests res.2 = requests h ++ [holiday_url henv year]).
Proof.
  cbn zeta. unfold holidays.
  destruct (is_year (trim henv raw)) eqn:Hyear; cbn [negb]; [|done].
  destruct (files h !! (trim henv raw ++ ".json")%string) as [cached|] eqn:Hfile; [done|].
  destruct (https_get henv (requests h) (holiday_url henv (trim henv raw)))
    as [|code content] eqn:Hget; [done|].
  destruct (Z.eqb_spec code 200) as [->|Hcode]; cbn [negb]; [|done].
  destruct (JSON_valid henv content) eqn:Hjson; cbn [negb]; [|done].
  destruct (write_ok henv (trim henv raw ++ ".json")%string content); [|done].
  cbn [fst snd files requests]. split; [|done].
  intros name Hdiff.
  destruct (decide (name = (trim henv raw ++ ".json")%string)) as [->|Hne].
  - split; [done|]. split; [done|]. exists content. by rewrite lookup_insert_eq.
  - by rewrite lookup_insert_ne in Hdiff.
Qed.

(** A calendar served once is served again from the directory: after a
    request answered with data, the same request is answered with the same
    data, without asking the source and without writing, whatever the source
    and the file system would do by then. *)
Theorem holidays_served_from_cache henv henv' raw h content :
  trim henv' = trim henv ->
  (holidays henv raw h).1 = HolidayData content ->
  holidays henv' raw (holidays henv raw h).2 =
    (HolidayData content, (holidays henv raw h).2).
Proof.
  intros Htrim. unfold holidays. rewrite Htrim.
  destruct (is_year (trim henv raw)) eqn:Hyear; cbn [negb]; [|done].
  destruct (files h !! (trim henv raw ++ ".json")%string) as [cached|] eqn:Hfile.
  - cbn [fst snd]. intros [= ->]. by rewrite Hfile.
  - destruct (https_get henv (requests h) (holiday_url henv (trim henv raw)))
      as [|code body] eqn:Hget; [done|].
    destruct (negb (code =? 200)); [done|].
    destruct (negb (JSON_valid henv body)); [done|].
    destruct (write_ok henv (trim henv raw ++ ".json")%string body); [|done].
    cbn [fst snd files]. intros [= ->]. by rewrite lookup_insert_eq.
Qed.

(** ** Account deletion *)

Section Accounts.

Variable env : Env.
Variable b : Binding.

Lemma scan_calls_absent u w :
  data w !! u = None ->
  calls_of u (new_events (scanAndSendReminders env) w) = [].
Proof.
  intros Hrow. unfold new_events. destruct (isPushConfigured env) eqn:Hcfg.
  - rewrite (scan_run env w Hcfg).
    set (rows := List.map _ _).
    destruct (scan_rows_run env (clock env (ticks w)) rows) with
      (w := {| data := data w; push_subscriptions := push_subscriptions w;
               ticks := S (ticks w); trace := trace w |}) as (evs & Htr & _ & Hout & _).
    { unfold rows. rewrite rows_usernames. apply NoDup_fst_map_to_list. }
    rewrite Htr. simpl. rewrite drop_app_length. apply Hout.
    unfold rows. rewrite rows_usernames. intros Hmem.
    apply list_elem_of_fmap in Hmem as ([u' r] & -> & Hmem).
    apply elem_of_map_to_list in Hmem. simpl in Hrow. congruence.
  - unfold scanAndSendReminders. rewrite Hcfg. simpl. by rewrite drop_all.
Qed.

(** An administrator cannot delete the own account: the request is refused
    and nothing changes.  Deleting another user removes the account and the
    task collection, so that the user's next read is the empty collection at
    version 0 and later scans call the dispatcher for that user no more;
    every other collection is as it was, and so is the whole registry: the
    subscriptions of the deleted user stay. *)
Theorem delete_user_effect {A} caller t (s : Site A) :
  (t = caller ->
   admin_delete_user b caller (Some (JStr t)) s = (AdminError 400 "不能删除自己", s))
  /\ (t <> caller ->
      let res := admin_delete_user b caller (Some (JStr t)) s in
      res.1 = AdminOk
      /\ accounts res.2 !! t = None
      /\ (run (fetch t) (store res.2)).1 = Fetched (JArr []) 0
      /\ calls_of t (new_events (scanAndSendReminders env) (store res.2)) = []
      /\ (forall u, u <> t ->
            accounts res.2 !! u = accounts s !! u
            /\ data (store res.2) !! u = data (store s) !! u)
      /\ push_subscriptions (store res.2) = push_subscriptions (store s)).
Proof.
  unfold admin_delete_user. cbn [strict_eq_string bound_username column_text]. split.
  - intros ->. by rewrite String.eqb_refl.
  - intros Hne. destruct (String.eqb_spec t caller); [done|].
    cbn zeta. cbn [fst snd accounts store].
    split; [done|]. split; [apply lookup_delete_eq|].
    split. { rewrite fetch_run. unfold stored_version. cbn [fst data].
             by rewrite lookup_delete_eq. }
    split. { apply scan_calls_absent. cbn [data]. apply lookup_delete_eq. }
    split; [|done].
    intros u Hu. cbn [data]. by rewrite !lookup_delete_ne.
Qed.

End Accounts.

(** ** Further properties on the example installations *)

Lemma publish_then_fetch_witness :
  run (fetch "alice") (run (publish example_env "alice" forced_request) example_world).2 =
    (Fetched (JArr []) 1000, (run (publish example_env "alice" forced_request) example_world).2).
Proof.
  apply (publish_then_fetch example_env "alice" forced_request example_world 1000).
  reflexivity.
Defined.

Lemma publish_leaves_others_witness :
  (run (fetch "alice") (run (publish example_env "bob" forced_request) example_world).2).1
  = (run (fetch "alice") example_world).1.
Proof.
  apply (publish_leaves_others example_env "bob" "alice" forced_request example_world).
  discriminate.
Defined.


Lemma scan_only_prunes_witness :
  push_subscriptions example_world !! "https://push.example/1" =
    Some {| sub_username := "alice"; sub_p256dh := "key"; sub_auth := "secret";
            sub_expiration_time := None; sub_created_at := 1 |}.
Proof.
  apply (scan_only_prunes example_env example_world).
  vm_compute. reflexivity.
Defined.



Lemma dispatched_at_most_once_witness :
  run (scan_task example_env "alice" 1030 (mark 1000 example_task true)) example_world
  = (mark 1000 example_task true, false, example_world).
Proof.
  apply (dispatched_at_most_once example_env "alice" 1000 example_task 1000).
  - vm_compute. reflexivity.
  - vm_compute. reflexivity.
  - lia.
Defined.


Lemma subscribe_then_dispatch_witness :
  (run (sendPushToUser example_env "bob" test_payload)
       (run (push_subscribe example_env example_binding "bob" phone_subscription)
            example_world).2).1 = true.
Proof.
  apply (subscribe_then_dispatch example_env example_binding "bob" phone_subscription
           "https://push.example/1" "key9" "secret9" test_payload example_world).
  - reflexivity.
  - vm_compute. reflexivity.
  - vm_compute. reflexivity.
  - vm_compute. reflexivity.
  - vm_compute. reflexivity.
Defined.

Lemma subscribe_takes_over_witness :
  "https://push.example/2" <> "https://push.example/1".
Proof.
  apply (subscribe_takes_over example_env example_binding "bob" phone_subscription
           "https://push.example/1" "alice" test_payload two_device_world
           {| endpoint := "https://push.example/2"; p256dh := "key2"; auth := "secret2" |}).
  - reflexivity.
  - vm_compute. reflexivity.
  - vm_compute. reflexivity.
  - discriminate.
  - vm_compute. tauto.
Defined.

Lemma unsubscribe_own_only_witness :
  push_subscriptions
    (run (push_unsubscribe example_binding "bob" (Some (JStr "https://push.example/1")))
         example_world).2
  = push_subscriptions example_world.
Proof.
  destruct (unsubscribe_own_only example_binding "bob" "https://push.example/1" example_world)
    as (_ & _ & _ & Hother & _).
  - discriminate.
  - apply (Hother {| sub_username := "alice"; sub_p256dh := "key"; sub_auth := "secret";
                     sub_expiration_time := None; sub_created_at := 1 |}).
    + vm_compute. reflexivity.
    + discriminate.
Defined.

Lemma unsubscribe_all_witness :
  (run (sendPushToUser example_env "alice" test_payload)
       (run (push_unsubscribe example_binding "alice" None) two_device_world).2).1 = false.
Proof.
  apply (unsubscribe_all example_env example_binding "alice" None test_payload two_device_world).
  reflexivity.
Defined.

Lemma start_configured_witness :
  keys_configured (keys (start bare_process ("BGen", "sGen") ∅)) = true.
Proof.
  apply (start_configured bare_process ("BGen", "sGen") ∅); discriminate.
Defined.

Lemma restart_reuses_keys_witness :
  keys (start bare_process ("BOther", "sOther")
          (settings (start bare_process ("BGen", "sGen") ∅)))
  = keys (start bare_process ("BGen", "sGen") ∅).
Proof.
  apply (restart_reuses_keys bare_process ("BGen", "sGen") ("BOther", "sOther") ∅).
  - reflexivity.
  - discriminate.
  - discriminate.
Defined.

Lemma lone_key_mismatch_witness :
  public_key (keys (start half_set_process ("BGen", "sGen") ∅)) = "BGen"
  /\ private_key (keys (start half_set_process ("BGen", "sGen") ∅)) = "sGen"
  /\ public_key (keys (start half_set_process ("BOther", "sOther")
                         (settings (start half_set_process ("BGen", "sGen") ∅)))) = "BEnv"
  /\ private_key (keys (start half_set_process ("BOther", "sOther")
                          (settings (start half_set_process ("BGen", "sGen") ∅)))) = "sGen".
Proof.
  apply (lone_key_mismatch half_set_process "BEnv" ("BGen", "sGen") ("BOther", "sOther") ∅).
  - reflexivity.
  - discriminate.
  - reflexivity.
  - reflexivity.
  - discriminate.
  - discriminate.
Defined.

Lemma holidays_served_from_cache_witness :
  holidays offline_holiday_env "2024" (holidays example_holiday_env "2024" empty_holidays).2
  = (HolidayData "{}", (holidays example_holiday_env "2024" empty_holidays).2).
Proof.
  apply (holidays_served_from_cache example_holiday_env offline_holiday_env "2024"
           empty_holidays "{}").
  - reflexivity.
  - vm_compute. reflexivity.
Defined.

Lemma delete_user_effect_witness :
  (run (fetch "alice")
       (store (admin_delete_user example_binding "root" (Some (JStr "alice"))
                 {| accounts := ({[ "alice" := tt; "root" := tt ]} : gmap string unit);
                    store := example_world |}).2)).1
  = Fetched (JArr []) 0.
Proof.
  apply (proj2 (delete_user_effect example_env example_binding "root" "alice"
                  {| accounts := ({[ "alice" := tt; "root" := tt ]} : gmap string unit);
                     store := example_world |})).
  discriminate.
Defined.

End Server.
